(** * The case-access-request view of the judge dashboard

    A shallow embedding of [src/services/request.service.ts]: the thin
    request client and the React component [CaseAccessRequest] that owns
    the request list, the search box, the pager and the per-row approve
    button.

    Conventions of the embedding.
    - JavaScript strings are [string]s; a character stands for one code
      unit.  The two locale-aware built-ins the component calls,
      [toLowerCase] and [trim], are the operations of the class
      [StringOps]; the theorems hold for an arbitrary instance, and
      [ascii_ops] is the instance for ASCII text that the examples run
      on.
    - JavaScript numbers that hold counts, page numbers and page sizes
      are integers of [Z]; the one real division, in [totalPages], is
      taken in [Q].
    - A [useState] cell is a field of [State]; its setter is the function
      of the same name as in the source.
    - An [async] handler is cut at its [await]: the part before it issues
      the remote call, the part after it consumes the outcome.  A handler
      or continuation runs to completion and the component is rendered
      again before the next event is delivered, so that a handler reads
      the state it is applied to. *)

From Stdlib Require Import ZArith QArith Qround String Ascii List Lia.
From stdpp Require Import gmap strings list fin_maps.
Import ListNotations.

Local Open Scope string_scope.
Local Open Scope Z_scope.

(** ** JavaScript built-ins used by the component *)

Module JS.

(** [a || d] on an optional string: [undefined] and the empty string
    are falsy. *)
Definition or_else (a : option string) (d : string) : string :=
  match a with
  | Some EmptyString => d
  | Some v => v
  | None => d
  end.

(** [a || []] on an optional array: every array, the empty one
    included, is truthy. *)
Definition or_empty {A} (a : option (list A)) : list A :=
  match a with
  | Some v => v
  | None => []
  end.

(** [!q] on a string. *)
Definition is_empty (q : string) : bool :=
  match q with
  | EmptyString => true
  | String _ _ => false
  end.

(** [s.includes(q)]: [q] occurs in [s] as a run of consecutive code
    units. *)
Fixpoint includes (s q : string) : bool :=
  if String.prefix q s then true
  else match s with
       | EmptyString => false
       | String _ s' => includes s' q
       end.

(** [l.slice(start, end)], with the relative indices of
    Array.prototype.slice: a negative index counts from the end, and
    both are clamped to the array. *)
Definition slice {A} (l : list A) (start end_ : Z) : list A :=
  let len := Z.of_nat (length l) in
  let k := if start <? 0 then Z.max (len + start) 0 else Z.min start len in
  let final := if end_ <? 0 then Z.max (len + end_) 0 else Z.min end_ len in
  take (Z.to_nat (final - k)) (drop (Z.to_nat k) l).

(** [Math.ceil(n / d)] for integers [n] and [d], [d] not zero. *)
Definition ceil_div (n d : Z) : Z :=
  Qceiling (inject_Z n / inject_Z d).

(** The inherited properties of a plain object: [o[k]] finds them when
    [o] has no own property [k], and all of them are truthy. *)
Definition object_prototype_keys : list string :=
  [ "constructor"; "hasOwnProperty"; "isPrototypeOf";
    "propertyIsEnumerable"; "toLocaleString"; "toString"; "valueOf";
    "__proto__"; "__defineGetter__"; "__defineSetter__";
    "__lookupGetter__"; "__lookupSetter__" ].

(** Truthiness of [o[k]] for a [Record<string, boolean>] built from
    [{}] by spreading. *)
Definition truthy_at (o : gmap string bool) (k : string) : bool :=
  match o !! k with
  | Some b => b
  | None => bool_decide (k ∈ object_prototype_keys)
  end.

End JS.

(** The locale-aware string built-ins. *)
Class StringOps := {
  toLowerCase : string -> string;
  trim : string -> string
}.

(** [toLowerCase] and [trim] on ASCII code units. *)
Module Ascii7.

Definition lower_unit (c : ascii) : ascii :=
  let n := N_of_ascii c in
  if ((65 <=? n) && (n <=? 90))%N then ascii_of_N (n + 32) else c.

Fixpoint lower (s : string) : string :=
  match s with
  | EmptyString => EmptyString
  | String c s' => String (lower_unit c) (lower s')
  end.

(** Tab, line feed, vertical tab, form feed, carriage return, space. *)
Definition is_space (c : ascii) : bool :=
  let n := N_of_ascii c in
  ((9 <=? n) && (n <=? 13) || (n =? 32))%N.

Fixpoint trim_start (s : string) : string :=
  match s with
  | EmptyString => EmptyString
  | String c s' => if is_space c then trim_start s' else s
  end.

Fixpoint trim_end (s : string) : string :=
  match s with
  | EmptyString => EmptyString
  | String c s' =>
      match trim_end s' with
      | EmptyString => if is_space c then EmptyString else String c EmptyString
      | t => String c t
      end
  end.

Definition trim_both (s : string) : string := trim_end (trim_start s).

End Ascii7.

#[export] Instance ascii_ops : StringOps :=
  {| toLowerCase := Ascii7.lower; trim := Ascii7.trim_both |}.

(** ** The request client *)

(** The remote calls of [requestService]. *)
Inductive Call :=
| getPendingRequests
| assignLawyer (caseId lawyerAddress : string).

(** The request each call sends through the HTTP client [api]; the
    payload of the response is handed back as it is. *)
Inductive HttpRequest :=
| GET (url : string)
| POST (url : string) (lawyerAddress : string).

Definition http_request (c : Call) : HttpRequest :=
  match c with
  | getPendingRequests => GET "/api/court/requests"
  | assignLawyer caseId lawyerAddress =>
      POST ("/api/court/" ++ caseId ++ "/assign-lawyer") lawyerAddress
  end.

(** Modelled from the spec: the type [ApiError] of [../types], whose
    declaration is not among the sources; a rejected call is caught as
    "a single thrown error value carrying an optional human-readable
    message field". *)
Record ApiError := { message : option string }.

(** ** Data model *)

Inductive Status := PENDING | APPROVED.

Record CaseRequest := {
  id : string;
  caseId : string;
  lawyerAddress : string;
  lawyerUid : option string;
  requestedAt : Z;
  status : Status;
  lawyerName : option string;
  lawyerEmail : option string
}.

(** The [useState] cells of [CaseAccessRequest]. *)
Record State := {
  requests : list CaseRequest;
  isLoading : bool;
  error : string;
  approving : gmap string bool;
  searchTerm : string;
  currentPage : Z;
  pageSize : Z
}.

Definition initialState : State :=
  {| requests := []; isLoading := true; error := ""; approving := ∅;
     searchTerm := ""; currentPage := 1; pageSize := 6 |}.

(** ** State setters

    One per [useState] cell.  The updater form [setX (fun prev => ...)]
    is the setter applied to a value computed from the state it is
    applied to. *)

Definition setRequests (v : list CaseRequest) (s : State) : State :=
  {| requests := v; isLoading := isLoading s; error := error s;
     approving := approving s; searchTerm := searchTerm s;
     currentPage := currentPage s; pageSize := pageSize s |}.

Definition setIsLoading (v : bool) (s : State) : State :=
  {| requests := requests s; isLoading := v; error := error s;
     approving := approving s; searchTerm := searchTerm s;
     currentPage := currentPage s; pageSize := pageSize s |}.

Definition setError (v : string) (s : State) : State :=
  {| requests := requests s; isLoading := isLoading s; error := v;
     approving := approving s; searchTerm := searchTerm s;
     currentPage := currentPage s; pageSize := pageSize s |}.

Definition setApproving (v : gmap string bool) (s : State) : State :=
  {| requests := requests s; isLoading := isLoading s; error := error s;
     approving := v; searchTerm := searchTerm s;
     currentPage := currentPage s; pageSize := pageSize s |}.

Definition setSearchTerm (v : string) (s : State) : State :=
  {| requests := requests s; isLoading := isLoading s; error := error s;
     approving := approving s; searchTerm := v;
     currentPage := currentPage s; pageSize := pageSize s |}.

Definition setCurrentPage (v : Z) (s : State) : State :=
  {| requests := requests s; isLoading := isLoading s; error := error s;
     approving := approving s; searchTerm := searchTerm s;
     currentPage := v; pageSize := pageSize s |}.

Definition setPageSize (v : Z) (s : State) : State :=
  {| requests := requests s; isLoading := isLoading s; error := error s;
     approving := approving s; searchTerm := searchTerm s;
     currentPage := currentPage s; pageSize := v |}.

(** The values the page-size select offers. *)
Definition pageSizeOptions : list Z := [6; 8; 12].

(** How an awaited call settles. *)
Inductive Settled (A : Type) :=
| Fulfilled (v : A)
| Rejected (e : ApiError).
Arguments Fulfilled {A} v.
Arguments Rejected {A} e.

(** What can happen to the mounted component. *)
Inductive Event :=
| Mount
| LoadSettled (r : Settled (option (list CaseRequest)))
| SearchChange (value : string)
| PageSizeChange (value : Z)
| ClickPrev
| ClickNext
| ClickPage (page : Z)
| ClickApprove (req : CaseRequest)
| AssignSettled (req : CaseRequest) (r : Settled unit).

Section Component.

Context {ops : StringOps}.

(** *** Derived values of a render *)

(** The callback of [requests.filter] in [filteredRequests]. *)
Definition matchesSearch (searchTerm : string) (r : CaseRequest) : bool :=
  let q := toLowerCase (trim searchTerm) in
  if JS.is_empty q then true
  else
    JS.includes (toLowerCase (JS.or_else (lawyerName r) "")) q
    || JS.includes (toLowerCase (JS.or_else (lawyerEmail r) "")) q
    || JS.includes (toLowerCase (caseId r)) q
    || JS.includes (toLowerCase (JS.or_else (Some (lawyerAddress r)) "")) q.

Definition filteredRequests (s : State) : list CaseRequest :=
  if 0 <? Z.of_nat (length (requests s))
  then List.filter (matchesSearch (searchTerm s)) (requests s)
  else [].

Definition totalPages (s : State) : Z :=
  Z.max 1 (JS.ceil_div (Z.of_nat (length (filteredRequests s))) (pageSize s)).

Definition displayedRequests (s : State) : list CaseRequest :=
  JS.slice (filteredRequests s)
    ((currentPage s - 1) * pageSize s)
    ((currentPage s - 1) * pageSize s + pageSize s).

(** The numbered page buttons:
    [Array.from({ length: totalPages }).map((_, i) => i + 1)]. *)
Definition pageButtons (s : State) : list Z :=
  List.map (fun i => Z.of_nat i + 1) (seq 0 (Z.to_nat (totalPages s))).

(** *** loadRequests *)

(** Up to the [await]. *)
Definition loadRequests_begin (s : State) : State * list Call :=
  (setIsLoading true s, [getPendingRequests]).

(** From the [await] on: the rest of the [try] block or the [catch]
    block, then the [finally] block. *)
Definition loadRequests_resume
    (outcome : Settled (option (list CaseRequest))) (s : State) : State :=
  let s' :=
    match outcome with
    | Fulfilled data =>
        setError "" (setCurrentPage 1 (setRequests (JS.or_empty data) s))
    | Rejected e =>
        setError (JS.or_else (message e) "Failed to load requests") s
    end in
  setIsLoading false s'.

(** *** handleApprove *)

(** [approving[i]] as a condition: the guard of [handleApprove] and the
    [disabled] attribute of the approve button. *)
Definition busy (s : State) (i : string) : bool :=
  JS.truthy_at (approving s) i.

(** Up to the [await]. *)
Definition handleApprove_begin (req : CaseRequest) (s : State)
  : State * list Call :=
  if busy s (id req) then (s, [])
  else
    (setApproving (<[id req := true]> (approving s)) s,
     [assignLawyer (caseId req) (lawyerAddress req)]).

(** From the [await] on. *)
Definition handleApprove_resume
    (req : CaseRequest) (outcome : Settled unit) (s : State) : State :=
  let s' :=
    match outcome with
    | Fulfilled _ =>
        setRequests
          (List.filter (fun r => negb (String.eqb (id r) (id req)))
             (requests s)) s
    | Rejected e =>
        setError (JS.or_else (message e) "Approval failed") s
    end in
  setApproving (<[id req := false]> (approving s')) s'.

(** *** Handlers of the controls *)

Definition onSearchChange (value : string) (s : State) : State :=
  setCurrentPage 1 (setSearchTerm value s).

(** [value] is [Number(e.target.value)], the option chosen. *)
Definition onPageSizeChange (value : Z) (s : State) : State :=
  setCurrentPage 1 (setPageSize value s).

Definition onPrev (s : State) : State :=
  setCurrentPage (Z.max 1 (currentPage s - 1)) s.

Definition onNext (s : State) : State :=
  setCurrentPage (Z.min (totalPages s) (currentPage s + 1)) s.

(** *** The component as a transition system *)

Definition step (s : State) (ev : Event) : State * list Call :=
  match ev with
  | Mount => loadRequests_begin s
  | LoadSettled r => (loadRequests_resume r s, [])
  | SearchChange v => (onSearchChange v s, [])
  | PageSizeChange v => (onPageSizeChange v s, [])
  | ClickPrev => (onPrev s, [])
  | ClickNext => (onNext s, [])
  | ClickPage p => (setCurrentPage p s, [])
  | ClickApprove req => handleApprove_begin req s
  | AssignSettled req r => (handleApprove_resume req r s, [])
  end.

(** Deliver the events in order and collect the calls they issue. *)
Fixpoint run (s : State) (evs : list Event) : State * list Call :=
  match evs with
  | [] => (s, [])
  | ev :: evs' =>
      let '(s1, c1) := step s ev in
      let '(s2, c2) := run s1 evs' in
      (s2, (c1 ++ c2)%list)
  end.

(** The event settles an approval of the request with this id. *)
Definition settles (i : string) (ev : Event) : bool :=
  match ev with
  | AssignSettled req _ => String.eqb (id req) i
  | _ => false
  end.

(** The event is a click on the approve button of a request with this
    id. *)
Definition approves (i : string) (ev : Event) : bool :=
  match ev with
  | ClickApprove req => String.eqb (id req) i
  | _ => false
  end.

(** The calls issued, along a run, by the approve clicks on the
    requests with id [i]. *)
Fixpoint callsFor (i : string) (s : State) (evs : list Event) : list Call :=
  match evs with
  | [] => []
  | ev :: evs' =>
      let '(s1, c1) := step s ev in
      ((if approves i ev then c1 else []) ++ callsFor i s1 evs')%list
  end.

(** The event is a click on Prev or on Next. *)
Definition navigates (ev : Event) : bool :=
  match ev with
  | ClickPrev | ClickNext => true
  | _ => false
  end.

(** The select delivers one of its options; the other events are not
    constrained. *)
Definition offered (ev : Event) : Prop :=
  match ev with
  | PageSizeChange v => In v pageSizeOptions
  | _ => True
  end.

(** The states the mounted component can be in. *)
Inductive reachable : State -> Prop :=
| reachable_initial : reachable initialState
| reachable_step s ev :
    reachable s -> offered ev -> reachable (fst (step s ev)).

End Component.

(** ** What a render shows *)

#[export] Instance Status_eq_dec : EqDecision Status.
Proof. solve_decision. Defined.

#[export] Instance CaseRequest_eq_dec : EqDecision CaseRequest.
Proof. solve_decision. Defined.

(** The three branches of the body of the view. *)
Inductive View := ShowLoading | ShowEmpty | ShowList.

Section Render.

Context {ops : StringOps}.

(** [isLoading ? ... : requests.length === 0 ? ... : ...]. *)
Definition view (s : State) : View :=
  if isLoading s then ShowLoading
  else if Z.of_nat (length (requests s)) =? 0 then ShowEmpty
  else ShowList.

(** The three numbers of the line "Showing a - b of n". *)
Definition showingFrom (s : State) : Z :=
  if Z.of_nat (length (filteredRequests s)) =? 0 then 0
  else (currentPage s - 1) * pageSize s + 1.

Definition showingTo (s : State) : Z :=
  Z.min (Z.of_nat (length (filteredRequests s))) (currentPage s * pageSize s).

Definition showingTotal (s : State) : Z :=
  Z.of_nat (length (filteredRequests s)).

(** The heading and the second line of a row. *)
Definition rowName (r : CaseRequest) : string :=
  JS.or_else (lawyerName r) "Unknown Lawyer".

Definition rowEmail (r : CaseRequest) : string :=
  JS.or_else (lawyerEmail r) "-".

(** The [disabled] attributes of the pager. *)
Definition prevDisabled (s : State) : bool := currentPage s =? 1.

Definition nextDisabled (s : State) : bool := currentPage s =? totalPages s.

(** The event is the success of an approval. *)
Definition removesRow (ev : Event) : bool :=
  match ev with
  | AssignSettled _ (Fulfilled _) => true
  | _ => false
  end.

(** The event is the success of the fetch. *)
Definition loadsRows (ev : Event) : bool :=
  match ev with
  | LoadSettled (Fulfilled _) => true
  | _ => false
  end.

(** A click on a numbered page button is one on a button that is
    there. *)
Definition pageOffered (s : State) (ev : Event) : Prop :=
  match ev with
  | ClickPage p => In p (pageButtons s)
  | _ => True
  end.

(** *** The mounted component with its calls in flight

    The effect of the mount has run: the fetch is in flight.  An event
    is delivered only when the render offers it: a control that is not
    rendered or is disabled is not clicked, and a call settles only
    while it is in flight. *)

Record Session := {
  ui : State;
  fetching : bool;
  inFlight : list CaseRequest
}.

Definition mounted : Session :=
  {| ui := fst (loadRequests_begin initialState);
     fetching := true;
     inFlight := [] |}.

(** Drop the first occurrence. *)
Fixpoint removeOne (req : CaseRequest) (l : list CaseRequest)
  : list CaseRequest :=
  match l with
  | [] => []
  | x :: l' => if bool_decide (x = req) then l' else x :: removeOne req l'
  end.

Definition enabled (ss : Session) (ev : Event) : bool :=
  let s := ui ss in
  let listed := match view s with ShowList => true | _ => false end in
  match ev with
  | Mount => false
  | LoadSettled _ => fetching ss
  | SearchChange _ => true
  | PageSizeChange v => bool_decide (v ∈ pageSizeOptions)
  | ClickPrev => listed && negb (prevDisabled s)
  | ClickNext => listed && negb (nextDisabled s)
  | ClickPage p => listed && bool_decide (p ∈ pageButtons s)
  | ClickApprove req =>
      listed && bool_decide (req ∈ displayedRequests s)
      && negb (busy s (id req))
  | AssignSettled req _ => bool_decide (req ∈ inFlight ss)
  end.

Definition deliver (ss : Session) (ev : Event) : option Session :=
  if enabled ss ev then
    Some {| ui := fst (step (ui ss) ev);
            fetching := match ev with
                        | LoadSettled _ => false
                        | _ => fetching ss
                        end;
            inFlight := match ev with
                        | ClickApprove req => req :: inFlight ss
                        | AssignSettled req _ => removeOne req (inFlight ss)
                        | _ => inFlight ss
                        end |}
  else None.

Fixpoint deliverAll (ss : Session) (evs : list Event) : option Session :=
  match evs with
  | [] => Some ss
  | ev :: evs' =>
      match deliver ss ev with
      | Some ss' => deliverAll ss' evs'
      | None => None
      end
  end.

(** The sessions of the component when every delivered event satisfies
    [P]. *)
Inductive sessions (P : Event -> Prop) : Session -> Prop :=
| sessions_mounted : sessions P mounted
| sessions_deliver ss ev ss' :
    sessions P ss -> P ev -> deliver ss ev = Some ss' -> sessions P ss'.

(** The fetch answers with requests of distinct ids. *)
Definition distinctIds (ev : Event) : Prop :=
  match ev with
  | LoadSettled (Fulfilled (Some l)) => NoDup (List.map id l)
  | _ => True
  end.

Definition anyEvent (ev : Event) : Prop := True.

(** What holds of every session. *)
Record session_inv (ss : Session) : Prop := {
  inv_loading : isLoading (ui ss) = fetching ss;
  inv_fetching : fetching ss = true -> inFlight ss = [];
  inv_distinct : NoDup (List.map id (inFlight ss));
  inv_busy : forall i,
      approving (ui ss) !! i = Some true <-> i ∈ List.map id (inFlight ss);
  inv_present : forall req, req ∈ inFlight ss -> req ∈ requests (ui ss);
  inv_page : 1 <= currentPage (ui ss);
  inv_pageSize : pageSize (ui ss) ∈ pageSizeOptions
}.

End Render.

(** ** Reference notions the properties are stated with *)

(** [c] is the ceiling of the quotient [n / d], for [d] positive. *)
Definition ceiling_of (n d c : Z) : Prop := (c - 1) * d < n <= c * d.

(** [q] occurs in [s] as a substring. *)
Definition substring_of (q s : string) : Prop :=
  exists a b, s = (a ++ q ++ b)%string.

(** ** Sample data *)

Definition sampleRequest (i : string) : CaseRequest :=
  {| id := i; caseId := "C" ++ i; lawyerAddress := "0xA"; lawyerUid := None;
     requestedAt := 1000; status := PENDING; lawyerName := None;
     lawyerEmail := None |}.

Definition sevenRequests : list CaseRequest :=
  List.map sampleRequest ["1"; "2"; "3"; "4"; "5"; "6"; "7"].

Definition sevenLoaded : State := setIsLoading false (setRequests sevenRequests initialState).

Definition alice : CaseRequest :=
  {| id := "1"; caseId := "C1"; lawyerAddress := "0xA"; lawyerUid := None;
     requestedAt := 1000; status := PENDING; lawyerName := Some "Alice";
     lawyerEmail := None |}.

Definition aliceSearched : State :=
  setSearchTerm "ali" (setIsLoading false (setRequests [alice] initialState)).

(** A state whose banner still shows an earlier failure. *)
Definition staleError : State := setError "Approval failed" sevenLoaded.

(** The query "zzz" matches no request of the sample. *)
Definition nothingFound : State := setSearchTerm "zzz" sevenLoaded.

(** The second page of the sample. *)
Definition secondPage : State := setCurrentPage 2 sevenLoaded.

(** A request with neither name nor email. *)
Definition anonymous : CaseRequest := sampleRequest "9".

(** The fetch has answered with the sample, and two approvals are in
    flight. *)
Definition sampleEvents : list Event :=
  [LoadSettled (Fulfilled (Some sevenRequests));
   ClickApprove (sampleRequest "3");
   ClickApprove (sampleRequest "5")].

Definition sampleSession : Session :=
  default mounted (deliverAll mounted sampleEvents).

(** An approval has failed in the sample session. *)
Definition failedSession : Session :=
  default mounted
    (deliver sampleSession
       (AssignSettled (sampleRequest "5")
          (Rejected {| message := Some "network down" |}))).

(** * Properties *)

(** ** The built-ins *)

Module JSFacts.
Import JS.

Lemma append_cons (c : ascii) (a b : string) :
  (String c a ++ b)%string = String c (a ++ b)%string.
Proof. reflexivity. Qed.

Lemma append_empty (b : string) : ("" ++ b)%string = b.
Proof. reflexivity. Qed.

Lemma prefix_app (q s : string) :
  String.prefix q s = true <-> exists b, s = (q ++ b)%string.
Proof.
  revert s. induction q as [|c q IH]; intros s.
  - split; [intros _; exists s; reflexivity | intros _; destruct s; reflexivity].
  - destruct s as [|d s]; simpl.
    + split; [discriminate | intros [b Hb]; discriminate].
    + destruct (Ascii.ascii_dec c d) as [->|Hne].
      * rewrite IH. split; intros [b Hb]; exists b;
          rewrite append_cons in *; congruence.
      * split; [discriminate|].
        intros [b Hb]. rewrite append_cons in Hb. congruence.
Qed.

Lemma includes_nil (q : string) :
  includes "" q = if String.prefix q "" then true else false.
Proof. reflexivity. Qed.

Lemma includes_cons (c : ascii) (s q : string) :
  includes (String c s) q =
  if String.prefix q (String c s) then true else includes s q.
Proof. reflexivity. Qed.

(** [includes s q] holds exactly when [q] is a substring of [s]. *)
Lemma includes_substring (s q : string) :
  includes s q = true <-> exists a b, s = (a ++ q ++ b)%string.
Proof.
  induction s as [|c s IH].
  - rewrite includes_nil. destruct (String.prefix q "") eqn:Hp.
    + apply prefix_app in Hp as [b Hb]. split; [|reflexivity].
      intros _. exists "", b. exact Hb.
    + split; [discriminate|]. intros [a [b Hb]].
      destruct a; [|discriminate]. rewrite append_empty in Hb.
      assert (String.prefix q "" = true) by (apply prefix_app; eauto).
      congruence.
  - rewrite includes_cons. destruct (String.prefix q (String c s)) eqn:Hp.
    + apply prefix_app in Hp as [b Hb]. split; [|reflexivity].
      intros _. exists "", b. exact Hb.
    + rewrite IH. split.
      * intros [a [b Hb]]. exists (String c a), b.
        rewrite append_cons. congruence.
      * intros [a [b Hb]]. destruct a as [|d a].
        -- rewrite append_empty in Hb.
           assert (String.prefix q (String c s) = true)
             by (apply prefix_app; eauto).
           congruence.
        -- rewrite append_cons in Hb. exists a, b. congruence.
Qed.

Lemma includes_empty (s : string) : includes s "" = true.
Proof. destruct s; reflexivity. Qed.

(** [slice] between two indices in order, the first not negative. *)
Lemma slice_take_drop {A} (l : list A) (a b : Z) :
  0 <= a <= b ->
  slice l a b = take (Z.to_nat (b - a)) (drop (Z.to_nat a) l).
Proof.
  intros Hab. unfold slice.
  destruct (Z.ltb_spec a 0) as [?|_]; [lia|].
  destruct (Z.ltb_spec b 0) as [?|_]; [lia|].
  destruct (Z.le_gt_cases a (Z.of_nat (length l))) as [Hle|Hgt].
  - rewrite (Z.min_l a) by lia.
    destruct (Z.le_gt_cases b (Z.of_nat (length l))) as [Hb|Hb].
    + rewrite Z.min_l by lia. reflexivity.
    + rewrite Z.min_r by lia.
      rewrite !take_ge; [reflexivity| |]; rewrite length_drop; lia.
  - rewrite !Z.min_r by lia. rewrite Z.sub_diag. simpl.
    rewrite !drop_ge by lia. now rewrite !take_nil.
Qed.

(** [Math.ceil(n / d)] in integer arithmetic. *)
Lemma ceil_div_opp (n d : Z) : 0 < d -> ceil_div n d = - ((- n) / d).
Proof.
  intros Hd. unfold ceil_div. destruct d as [|p|p]; try lia.
  unfold Qceiling, Qfloor, Qdiv, Qinv, Qmult, Qopp, inject_Z. simpl.
  rewrite Z.mul_1_r. reflexivity.
Qed.

(** The defining bounds of the ceiling. *)
Lemma ceil_div_bounds (n d : Z) :
  0 < d -> (ceil_div n d - 1) * d < n <= ceil_div n d * d.
Proof.
  intros Hd. rewrite ceil_div_opp by assumption.
  pose proof (Z.div_mod (- n) d ltac:(lia)) as Hdm.
  pose proof (Z.mod_pos_bound (- n) d Hd) as Hm.
  nia.
Qed.

(** Consecutive chunks of [k] elements make up a prefix. *)
Lemma concat_chunks {A} (l : list A) (k m : nat) :
  concat (List.map (fun i => take k (drop (i * k) l)) (seq 0 m))
  = take (m * k) l.
Proof.
  induction m as [|m IH].
  - reflexivity.
  - rewrite seq_S, List.map_app, concat_app, IH. simpl.
    rewrite app_nil_r, take_take_drop. f_equal. lia.
Qed.

End JSFacts.

(** ** Filtering and paging *)

Section Paging.

Context {ops : StringOps}.

(** The guard on the empty collection changes nothing. *)
Lemma filteredRequests_filter (s : State) :
  filteredRequests s = List.filter (matchesSearch (searchTerm s)) (requests s).
Proof.
  unfold filteredRequests. destruct (requests s); reflexivity.
Qed.

Lemma filteredRequests_setCurrentPage (p : Z) (s : State) :
  filteredRequests (setCurrentPage p s) = filteredRequests s.
Proof. reflexivity. Qed.

Lemma totalPages_setCurrentPage (p : Z) (s : State) :
  totalPages (setCurrentPage p s) = totalPages s.
Proof. reflexivity. Qed.

Lemma totalPages_ge_1 (s : State) : 1 <= totalPages s.
Proof. unfold totalPages. lia. Qed.

(** The slice shown on page [i + 1]. *)
Lemma displayedRequests_page (i : nat) (s : State) :
  0 < pageSize s ->
  displayedRequests (setCurrentPage (Z.of_nat i + 1) s)
  = take (Z.to_nat (pageSize s))
      (drop (i * Z.to_nat (pageSize s)) (filteredRequests s)).
Proof.
  intros Hps. unfold displayedRequests.
  rewrite filteredRequests_setCurrentPage. simpl currentPage. simpl pageSize.
  rewrite JSFacts.slice_take_drop by nia.
  f_equal; [f_equal; lia | f_equal; nia].
Qed.

(** The page count is the ceiling of the quotient, and at least 1. *)
Lemma totalPages_ceiling (s : State) :
  0 < pageSize s ->
  exists c, ceiling_of (Z.of_nat (length (filteredRequests s))) (pageSize s) c
            /\ totalPages s = Z.max 1 c.
Proof.
  intros Hps. eexists. split; [|reflexivity].
  apply JSFacts.ceil_div_bounds, Hps.
Qed.

(** The pages, in order, make up the filtered collection. *)
Lemma pages_concat (s : State) :
  0 < pageSize s ->
  concat (List.map (fun p => displayedRequests (setCurrentPage p s))
            (pageButtons s))
  = filteredRequests s.
Proof.
  intros Hps.
  pose proof (JSFacts.ceil_div_bounds
                (Z.of_nat (length (filteredRequests s))) (pageSize s) Hps)
    as Hc.
  unfold pageButtons. rewrite List.map_map.
  rewrite (List.map_ext _
             (fun i => take (Z.to_nat (pageSize s))
                         (drop (i * Z.to_nat (pageSize s))
                            (filteredRequests s))))
    by (intros i; apply displayedRequests_page; exact Hps).
  rewrite JSFacts.concat_chunks. apply take_ge.
  pose proof (totalPages_ge_1 s) as H1. unfold totalPages in *.
  nia.
Qed.

(** The slice shown on page [p]: the [pageSize] elements of the filtered
    collection from index [(p - 1) * pageSize] on. *)
Lemma displayedRequests_at_page (p : Z) (s : State) :
  0 < pageSize s -> 1 <= p ->
  displayedRequests (setCurrentPage p s)
  = take (Z.to_nat (pageSize s))
      (drop (Z.to_nat ((p - 1) * pageSize s)) (filteredRequests s)).
Proof.
  intros Hps Hp.
  replace p with (Z.of_nat (Z.to_nat (p - 1)) + 1) at 1 by lia.
  rewrite displayedRequests_page by exact Hps.
  do 2 f_equal. nia.
Qed.

(** C1. For every state with a positive page size (the select offers 6,
    8 and 12): the total page count is the maximum of 1 and the
    ceiling of the filtered count over the page size; the slice
    displayed on a page [p] is made of the [pageSize] elements of the
    filtered collection from index [(p - 1) * pageSize] on (fewer where
    the collection ends); and the slices displayed on pages 1 to
    [totalPages], concatenated in page order, are the filtered
    collection itself: every element once, in the original order. *)
Theorem pages_partition_filtered (s : State) :
  0 < pageSize s ->
  (exists c, ceiling_of (Z.of_nat (length (filteredRequests s))) (pageSize s) c
             /\ totalPages s = Z.max 1 c)
  /\ (forall p, 1 <= p ->
      displayedRequests (setCurrentPage p s)
      = take (Z.to_nat (pageSize s))
          (drop (Z.to_nat ((p - 1) * pageSize s)) (filteredRequests s)))
  /\ concat (List.map (fun p => displayedRequests (setCurrentPage p s))
               (pageButtons s))
     = filteredRequests s.
Proof.
  intros Hps. split; [apply totalPages_ceiling; exact Hps|]. split.
  - intros p Hp. apply displayedRequests_at_page; assumption.
  - apply pages_concat; exact Hps.
Qed.

Lemma pageButtons_range (s : State) (p : Z) :
  In p (pageButtons s) <-> 1 <= p <= totalPages s.
Proof.
  unfold pageButtons. rewrite List.in_map_iff. split.
  - intros [i [<- Hi]]. apply List.in_seq in Hi. lia.
  - intros Hp. exists (Z.to_nat (p - 1)). split; [lia|].
    apply List.in_seq. lia.
Qed.

End Paging.

Lemma pages_partition_filtered_witness :
  0 < pageSize sevenLoaded
  /\ totalPages sevenLoaded = 2
  /\ displayedRequests (setCurrentPage 2 sevenLoaded)
     = take 6 (drop 6 (filteredRequests sevenLoaded))
  /\ concat (List.map (fun p => displayedRequests (setCurrentPage p sevenLoaded))
               (pageButtons sevenLoaded))
     = filteredRequests sevenLoaded.
Proof.
  assert (Hps : 0 < pageSize sevenLoaded) by (vm_compute; reflexivity).
  split; [exact Hps|]. split; [vm_compute; reflexivity|]. split.
  - exact (proj1 (proj2 (pages_partition_filtered sevenLoaded Hps)) 2
             ltac:(lia)).
  - exact (proj2 (proj2 (pages_partition_filtered sevenLoaded Hps))).
Defined.

Example seven_requests_two_pages :
  totalPages sevenLoaded = 2
  /\ List.map id (displayedRequests (setCurrentPage 1 sevenLoaded))
     = ["1"; "2"; "3"; "4"; "5"; "6"]
  /\ List.map id (displayedRequests (setCurrentPage 2 sevenLoaded)) = ["7"].
Proof. repeat split; vm_compute; reflexivity. Qed.

Section Filtering.

Context {ops : StringOps}.

Lemma is_empty_true (q : string) : JS.is_empty q = true <-> q = "".
Proof. destruct q; simpl; split; congruence. Qed.

(** The filter callback, field by field. *)
Lemma matchesSearch_spec (term : string) (r : CaseRequest) :
  let q := toLowerCase (trim term) in
  matchesSearch term r = true <->
  q = ""
  \/ substring_of q (toLowerCase (JS.or_else (lawyerName r) ""))
  \/ substring_of q (toLowerCase (JS.or_else (lawyerEmail r) ""))
  \/ substring_of q (toLowerCase (caseId r))
  \/ substring_of q (toLowerCase (JS.or_else (Some (lawyerAddress r)) "")).
Proof.
  intros q. unfold matchesSearch. fold q.
  destruct (JS.is_empty q) eqn:Hq.
  - apply is_empty_true in Hq. tauto.
  - assert (q <> "") by (intros E; apply is_empty_true in E; congruence).
    rewrite !orb_true_iff, !JSFacts.includes_substring.
    unfold substring_of. tauto.
Qed.


End Filtering.

(** Neither the case nor the blanks around the query matter: "ali" and
    " ALI " both keep the request of "Alice", "bob" does not. *)
Example filter_ignores_case_and_padding :
  In alice (filteredRequests aliceSearched)
  /\ In alice (filteredRequests (setSearchTerm " ALI " aliceSearched))
  /\ filteredRequests (setSearchTerm "bob" aliceSearched) = [].
Proof. split; [|split]; vm_compute; auto. Qed.


(** ** Loading *)

Section Loading.

Lemma or_else_some (m d : string) : m <> "" -> JS.or_else (Some m) d = m.
Proof. destruct m; [congruence | reflexivity]. Qed.

(** C5, as the component has it. For every state: when the load
    operation has begun and the fetch is in flight the loading flag is
    set, the fetch is the one call issued, and the error message is the
    prior one, untouched; the message is cleared once the fetch has
    succeeded. *)
Theorem load_clears_error_on_success (s : State) :
  let s1 := fst (loadRequests_begin s) in
  snd (loadRequests_begin s) = [getPendingRequests]
  /\ isLoading s1 = true
  /\ error s1 = error s
  /\ forall data, error (loadRequests_resume (Fulfilled data) s1) = "".
Proof. repeat split. Qed.

(** C6. For every state and every failing fetch: after the load
    operation the error message is the failure's message, or "Failed to
    load requests" when the message is absent or empty; the loading
    flag is cleared; the collection is the one held before the load. *)
Theorem load_failure (s : State) (e : ApiError) :
  let s' := loadRequests_resume (Rejected e) (fst (loadRequests_begin s)) in
  (forall m, message e = Some m -> m <> "" -> error s' = m)
  /\ (message e = None \/ message e = Some "" ->
      error s' = "Failed to load requests")
  /\ isLoading s' = false
  /\ requests s' = requests s.
Proof.
  simpl. repeat split.
  - intros m Hm Hne. rewrite Hm. apply or_else_some, Hne.
  - intros [-> | ->]; reflexivity.
Qed.

(** C8. For every state and every successful fetch: the load operation
    makes the collection the fetched result, or the empty collection
    when the result is absent, whatever the collection held before, and
    sets the current page to 1. *)
Theorem load_success (s : State) (data : option (list CaseRequest)) :
  let s' := loadRequests_resume (Fulfilled data) (fst (loadRequests_begin s)) in
  (forall l, data = Some l -> requests s' = l)
  /\ (data = None \/ data = Some [] -> requests s' = [])
  /\ currentPage s' = 1.
Proof.
  simpl. repeat split.
  - intros l ->. reflexivity.
  - intros [-> | ->]; reflexivity.
Qed.

(** What a load leaves alone. *)
Lemma load_frame (r : Settled (option (list CaseRequest))) (s : State) :
  let s' := loadRequests_resume r (fst (loadRequests_begin s)) in
  approving s' = approving s
  /\ searchTerm s' = searchTerm s
  /\ pageSize s' = pageSize s
  /\ isLoading s' = false.
Proof. destruct r; repeat split. Qed.

End Loading.

(** C5, as worded: the banner of an earlier failure is still there when
    the load has begun and the fetch is in flight. *)
Lemma load_begin_keeps_error_counterexample :
  error staleError = "Approval failed"
  /\ snd (loadRequests_begin staleError) = [getPendingRequests]
  /\ error (fst (loadRequests_begin staleError)) <> "".
Proof. repeat split. discriminate. Qed.

Lemma load_failure_witness :
  let e := {| message := Some "network down" |} in
  let s' := loadRequests_resume (Rejected e) (fst (loadRequests_begin initialState)) in
  error s' = "network down".
Proof.
  intros e s'.
  apply (proj1 (load_failure initialState e) "network down");
    [reflexivity | discriminate].
Defined.

Lemma load_success_witness :
  let s' := loadRequests_resume (Fulfilled (Some sevenRequests))
              (fst (loadRequests_begin staleError)) in
  requests s' = sevenRequests.
Proof.
  intros s'.
  apply (proj1 (load_success staleError (Some sevenRequests)) sevenRequests).
  reflexivity.
Defined.

Example initial_load_fails_without_message :
  let s' := fst (run initialState
                   [Mount; LoadSettled (Rejected {| message := None |})]) in
  error s' = "Failed to load requests" /\ isLoading s' = false /\ requests s' = [].
Proof. repeat split. Qed.

(** ** Approving *)

Section Approving.

Context {ops : StringOps}.

Implicit Types (s : State) (req : CaseRequest) (i : string).

Lemma eqb_id_false (a b : string) : String.eqb a b = false <-> a <> b.
Proof. apply String.eqb_neq. Qed.

(** Removing by id from a collection that holds the id once. *)
Lemma remove_by_id (l : list CaseRequest) i :
  NoDup (List.map id l) ->
  (exists r, In r l /\ id r = i) ->
  exists l1 r l2,
    l = (l1 ++ r :: l2)%list /\ id r = i
    /\ List.filter (fun r => negb (String.eqb (id r) i)) l = (l1 ++ l2)%list.
Proof.
  induction l as [|a l IH]; intros Hnd [r [Hin Hr]]; [destruct Hin|].
  simpl in Hnd. apply NoDup_cons in Hnd as [Hnot Hnd]. simpl.
  destruct (String.eqb_spec (id a) i) as [Ha|Ha]; simpl.
  - exists [], a, l. repeat split; [exact Ha|].
    apply List.forallb_filter_id, List.forallb_forall. intros x Hx.
    apply negb_true_iff, eqb_id_false. intros Hxi. apply Hnot.
    apply list_elem_of_In, List.in_map_iff. exists x.
    split; [congruence | exact Hx].
  - destruct Hin as [->|Hin]; [congruence|].
    destruct IH as [l1 [r' [l2 [-> [Hr' Hf]]]]]; [exact Hnd | eauto |].
    exists (a :: l1), r', l2. repeat split; [exact Hr'|].
    simpl. now rewrite Hf.
Qed.

(** C2. For every state whose collection has unique ids and holds the
    id of the approved request: when the assign call succeeds the
    collection loses exactly one entry, the one with that id, and keeps
    the others in order; when the assign call fails it loses none. *)
Theorem approve_removes_one (s : State) (req : CaseRequest) :
  NoDup (List.map id (requests s)) ->
  (exists r, In r (requests s) /\ id r = id req) ->
  (exists l1 r l2,
      requests s = (l1 ++ r :: l2)%list /\ id r = id req
      /\ requests (handleApprove_resume req (Fulfilled tt) s) = (l1 ++ l2)%list
      /\ length (requests (handleApprove_resume req (Fulfilled tt) s))
         = (length (requests s) - 1)%nat)
  /\ forall e, requests (handleApprove_resume req (Rejected e) s) = requests s.
Proof.
  intros Hnd Hin. split; [|reflexivity].
  destruct (remove_by_id (requests s) (id req) Hnd Hin)
    as [l1 [r [l2 [Hl [Hr Hf]]]]].
  exists l1, r, l2. simpl. rewrite Hf, Hl. repeat split; [exact Hr|].
  rewrite !length_app. simpl. lia.
Qed.

(** No entry with the approved id is left, whatever the collection. *)
Lemma approve_success_id_gone (s : State) (req : CaseRequest) (r : CaseRequest) :
  In r (requests (handleApprove_resume req (Fulfilled tt) s)) ->
  id r <> id req.
Proof.
  simpl. rewrite List.filter_In. intros [_ H].
  apply negb_true_iff, eqb_id_false in H. exact H.
Qed.

(** Unique ids stay unique under an approval. *)
Lemma approve_keeps_unique_ids (s : State) (req : CaseRequest) (r : Settled unit) :
  NoDup (List.map id (requests s)) ->
  NoDup (List.map id (requests (handleApprove_resume req r s))).
Proof.
  intros Hnd. destruct r as [u|e]; [|exact Hnd]. simpl.
  induction (requests s) as [|a l IH]; [exact Hnd|].
  simpl in Hnd. apply NoDup_cons in Hnd as [Hnot Hnd]. simpl.
  destruct (negb (String.eqb (id a) (id req))); [|auto].
  simpl. apply NoDup_cons. split; [|auto].
  intros Hin. apply Hnot.
  apply list_elem_of_In, List.in_map_iff in Hin as [x [Hx Hin]].
  apply List.filter_In in Hin as [Hin _].
  apply list_elem_of_In, List.in_map_iff. eauto.
Qed.

Lemma truthy_at_insert (m : gmap string bool) i (b : bool) :
  JS.truthy_at (<[i := b]> m) i = b.
Proof. unfold JS.truthy_at. now rewrite lookup_insert_eq. Qed.

Lemma truthy_at_insert_ne (m : gmap string bool) i j (b : bool) :
  i <> j -> JS.truthy_at (<[i := b]> m) j = JS.truthy_at m j.
Proof. intros H. unfold JS.truthy_at. now rewrite lookup_insert_ne. Qed.

(** C7. For every state, request and outcome of the assign call: after
    the operation has settled the busy flag of the request's id is
    false; and when the call failed, the error message is the
    failure's message, or "Approval failed" when the message is absent
    or empty, and the collection, the target entry with it, is as it
    was. *)
Theorem approve_settles (s : State) (req : CaseRequest) (r : Settled unit) :
  let s' := handleApprove_resume req r s in
  approving s' !! id req = Some false
  /\ JS.truthy_at (approving s') (id req) = false
  /\ forall e, r = Rejected e ->
       (forall m, message e = Some m -> m <> "" -> error s' = m)
       /\ (message e = None \/ message e = Some "" ->
           error s' = "Approval failed")
       /\ requests s' = requests s
       /\ (In req (requests s) -> In req (requests s')).
Proof.
  intros s'. subst s'. split; [|split].
  - unfold handleApprove_resume. simpl. apply lookup_insert_eq.
  - unfold handleApprove_resume. simpl. apply truthy_at_insert.
  - intros e ->. simpl. repeat split; [| |auto].
    + intros m Hm Hne. rewrite Hm. apply or_else_some, Hne.
    + intros [-> | ->]; reflexivity.
Qed.

End Approving.

(** ** The busy guard *)

Section BusyGuard.

Context {ops : StringOps}.

Implicit Types (s : State) (req : CaseRequest) (i : string).

Lemma marked_busy s i : approving s !! i = Some true -> busy s i = true.
Proof. unfold busy, JS.truthy_at. now intros ->. Qed.

Lemma handleApprove_begin_busy req s :
  busy s (id req) = true -> handleApprove_begin req s = (s, []).
Proof. unfold handleApprove_begin. now intros ->. Qed.

Lemma handleApprove_begin_idle req s :
  busy s (id req) = false ->
  snd (handleApprove_begin req s) = [assignLawyer (caseId req) (lawyerAddress req)]
  /\ busy (fst (handleApprove_begin req s)) (id req) = true.
Proof.
  unfold handleApprove_begin. intros ->. simpl.
  split; [reflexivity | apply truthy_at_insert].
Qed.

(** Only the settling of its own call clears a busy flag. *)
Lemma step_keeps_busy s ev i :
  busy s i = true -> settles i ev = false -> busy (fst (step s ev)) i = true.
Proof.
  intros Hb Hs. destruct ev as [|r|v|v| | |p|req|req r]; try exact Hb.
  - destruct r; exact Hb.
  - simpl. unfold handleApprove_begin.
    destruct (busy s (id req)) eqn:Hq; [exact Hb|].
    unfold busy. simpl.
    destruct (String.eqb_spec (id req) i) as [->|Hne].
    + apply truthy_at_insert.
    + rewrite truthy_at_insert_ne by exact Hne. exact Hb.
  - simpl in Hs. apply eqb_id_false in Hs.
    unfold busy. simpl. destruct r; simpl;
      (rewrite truthy_at_insert_ne by exact Hs); exact Hb.
Qed.

(** While a request is busy and its call has not settled, the approve
    clicks on it issue nothing, and it is still busy afterwards. *)
Lemma busy_run s evs i :
  busy s i = true ->
  forallb (fun ev => negb (settles i ev)) evs = true ->
  callsFor i s evs = [] /\ busy (fst (run s evs)) i = true.
Proof.
  revert s. induction evs as [|ev evs IH]; intros s Hb Hs; [now split|].
  simpl in Hs. apply andb_true_iff in Hs as [Hev Hs].
  apply negb_true_iff in Hev.
  pose proof (step_keeps_busy s ev i Hb Hev) as Hb1.
  simpl. destruct (step s ev) as [s1 c1] eqn:Hstep. simpl in Hb1.
  destruct (IH s1 Hb1 Hs) as [Hc Hb2].
  destruct (run s1 evs) as [s2 c2]. simpl in *. rewrite Hc.
  split; [|exact Hb2]. rewrite app_nil_r.
  destruct ev as [|r|v|v| | |p|req|req r]; simpl; try reflexivity.
  destruct (String.eqb_spec (id req) i) as [E|_]; [|reflexivity].
  simpl in Hstep. rewrite handleApprove_begin_busy in Hstep by now rewrite E.
  congruence.
Qed.

(** C3. For every state and request: when the request's id is marked
    busy, invoking the approval changes no state and issues no call;
    and when it is not busy, of an approve click, any events that do
    not settle that request's call, and a second approve click, only
    the first click issues a call for that request, one assign call,
    the second click being without effect. *)
Theorem approve_guard (s : State) (req : CaseRequest) :
  (approving s !! id req = Some true -> handleApprove_begin req s = (s, []))
  /\ (busy s (id req) = false ->
      forall evs,
        forallb (fun ev => negb (settles (id req) ev)) evs = true ->
        callsFor (id req) s (ClickApprove req :: evs ++ [ClickApprove req])
        = [assignLawyer (caseId req) (lawyerAddress req)]
        /\ let s2 := fst (run s (ClickApprove req :: evs)) in
           step s2 (ClickApprove req) = (s2, [])).
Proof.
  split.
  - intros Hm. apply handleApprove_begin_busy, marked_busy, Hm.
  - intros Hidle evs Hevs.
    destruct (handleApprove_begin_idle req s Hidle) as [Hc Hb].
    simpl. destruct (handleApprove_begin req s) as [s1 c1]. simpl in Hc, Hb.
    rewrite String.eqb_refl. subst c1. split.
    + assert (Hall : forallb (fun ev => negb (settles (id req) ev))
                       (evs ++ [ClickApprove req]) = true)
        by (rewrite forallb_app, Hevs; reflexivity).
      destruct (busy_run s1 _ (id req) Hb Hall) as [-> _]. reflexivity.
    + destruct (busy_run s1 evs (id req) Hb Hevs) as [_ Hb2].
      destruct (run s1 evs) as [s2 c2]. simpl in *.
      apply handleApprove_begin_busy, Hb2.
Qed.

End BusyGuard.

Lemma approve_guard_witness :
  busy sevenLoaded "3" = false
  /\ callsFor "3" sevenLoaded
       [ClickApprove (sampleRequest "3"); ClickNext;
        ClickApprove (sampleRequest "5"); ClickApprove (sampleRequest "3")]
     = [assignLawyer "C3" "0xA"].
Proof.
  assert (Hidle : busy sevenLoaded (id (sampleRequest "3")) = false)
    by (vm_compute; reflexivity).
  split; [exact Hidle|].
  exact (proj1 (proj2 (approve_guard sevenLoaded (sampleRequest "3")) Hidle
                  [ClickNext; ClickApprove (sampleRequest "5")] eq_refl)).
Defined.

(** ** The controls *)

Section Controls.

Context {ops : StringOps}.

(** C9. For every state: a change of the search query stores the new
    query and sets the current page to 1; a change of the page size
    stores the new size and sets the current page to 1. *)
Theorem query_and_page_size_reset_page (s : State) :
  (forall value,
      currentPage (fst (step s (SearchChange value))) = 1
      /\ searchTerm (fst (step s (SearchChange value))) = value)
  /\ (forall value,
      currentPage (fst (step s (PageSizeChange value))) = 1
      /\ pageSize (fst (step s (PageSizeChange value))) = value).
Proof. split; intros value; split; reflexivity. Qed.

Lemma totalPages_onPrev (s : State) : totalPages (onPrev s) = totalPages s.
Proof. reflexivity. Qed.

Lemma totalPages_onNext (s : State) : totalPages (onNext s) = totalPages s.
Proof. reflexivity. Qed.

(** Prev and Next keep a page that is in range in range. *)
Lemma navigation_step_in_range (s : State) (ev : Event) :
  navigates ev = true ->
  1 <= currentPage s <= totalPages s ->
  1 <= currentPage (fst (step s ev)) <= totalPages (fst (step s ev)).
Proof.
  intros Hn Hr. pose proof (totalPages_ge_1 s) as H1.
  destruct ev; try discriminate; simpl fst.
  - rewrite totalPages_onPrev. simpl. lia.
  - rewrite totalPages_onNext. simpl. lia.
Qed.

Lemma navigation_run_in_range (evs : list Event) (s : State) :
  forallb navigates evs = true ->
  1 <= currentPage s <= totalPages s ->
  1 <= currentPage (fst (run s evs)) <= totalPages (fst (run s evs)).
Proof.
  revert s. induction evs as [|ev evs IH]; intros s Hn Hr; [exact Hr|].
  simpl in Hn. apply andb_true_iff in Hn as [Hev Hn].
  pose proof (navigation_step_in_range s ev Hev Hr) as Hr1.
  simpl. destruct (step s ev) as [s1 c1]. simpl in Hr1.
  specialize (IH s1 Hn Hr1). destruct (run s1 evs) as [s2 c2]. exact IH.
Qed.

(** C10. For every state: Prev sets the current page to
    [max 1 (currentPage - 1)] and Next sets it to
    [min totalPages (currentPage + 1)]; neither changes the total page
    count; Prev never yields a page below 1 and Next never one above
    the total; and from a page between 1 and the total, any sequence of
    Prev and Next clicks leaves the page between 1 and the total. *)
Theorem navigation_clamped (s : State) :
  currentPage (onPrev s) = Z.max 1 (currentPage s - 1)
  /\ currentPage (onNext s) = Z.min (totalPages s) (currentPage s + 1)
  /\ totalPages (onPrev s) = totalPages s
  /\ totalPages (onNext s) = totalPages s
  /\ 1 <= currentPage (onPrev s)
  /\ currentPage (onNext s) <= totalPages s
  /\ (1 <= currentPage s <= totalPages s ->
      forall evs,
        forallb navigates evs = true ->
        1 <= currentPage (fst (run s evs)) <= totalPages (fst (run s evs))).
Proof.
  repeat split; try reflexivity; simpl; try lia.
  - apply navigation_run_in_range; assumption.
  - apply navigation_run_in_range; assumption.
Qed.

(** A numbered page button selects a page in range. *)
Lemma page_button_in_range (s : State) (p : Z) :
  In p (pageButtons s) ->
  1 <= currentPage (fst (step s (ClickPage p)))
    <= totalPages (fst (step s (ClickPage p))).
Proof. intros Hp. apply pageButtons_range in Hp. exact Hp. Qed.

(** The page size of the mounted component is one of the options. *)
Lemma reachable_pageSize (s : State) :
  reachable s -> In (pageSize s) pageSizeOptions.
Proof.
  induction 1 as [|s ev Hs IH Hev].
  - simpl. tauto.
  - destruct ev as [|r|v|v| | |p|req|req r]; try exact IH.
    + destruct r; exact IH.
    + exact Hev.
    + simpl. unfold handleApprove_begin. destruct (busy s (id req)); exact IH.
    + destruct r; exact IH.
Qed.

Corollary reachable_pageSize_pos (s : State) : reachable s -> 0 < pageSize s.
Proof.
  intros Hs. apply reachable_pageSize in Hs. unfold pageSizeOptions in Hs.
  simpl in Hs. lia.
Qed.

(** In every state of the mounted component the pages partition the
    filtered collection. *)
Corollary reachable_pages_partition (s : State) :
  reachable s ->
  concat (List.map (fun p => displayedRequests (setCurrentPage p s))
            (pageButtons s))
  = filteredRequests s.
Proof.
  intros Hs. apply pages_concat, reachable_pageSize_pos, Hs.
Qed.

End Controls.

Lemma navigation_clamped_witness :
  let evs := [ClickNext; ClickNext; ClickPrev; ClickPrev; ClickPrev] in
  1 <= currentPage sevenLoaded <= totalPages sevenLoaded
  /\ 1 <= currentPage (fst (run sevenLoaded evs))
       <= totalPages (fst (run sevenLoaded evs)).
Proof.
  intros evs.
  assert (Hr : 1 <= currentPage sevenLoaded <= totalPages sevenLoaded)
    by (vm_compute; split; discriminate).
  split; [exact Hr|].
  exact (proj2 (proj2 (proj2 (proj2 (proj2 (proj2
           (navigation_clamped sevenLoaded)))))) Hr evs eq_refl).
Defined.

Lemma approve_removes_one_witness :
  let req := sampleRequest "3" in
  NoDup (List.map id (requests sevenLoaded))
  /\ (exists r, In r (requests sevenLoaded) /\ id r = id req)
  /\ exists l1 r l2,
       requests sevenLoaded = (l1 ++ r :: l2)%list /\ id r = id req
       /\ requests (handleApprove_resume req (Fulfilled tt) sevenLoaded)
          = (l1 ++ l2)%list
       /\ length (requests (handleApprove_resume req (Fulfilled tt) sevenLoaded))
          = (length (requests sevenLoaded) - 1)%nat.
Proof.
  intros req.
  assert (Hnd : NoDup (List.map id (requests sevenLoaded)))
    by (apply NoDup_ListNoDup; vm_compute;
        repeat (apply List.NoDup_cons;
                [cbn; intros H; repeat (destruct H as [H|H]; [discriminate H|]);
                 exact H|]);
        apply List.NoDup_nil).
  assert (Hin : exists r, In r (requests sevenLoaded) /\ id r = id req)
    by (exists req; split; [simpl; tauto | reflexivity]).
  split; [exact Hnd|]. split; [exact Hin|].
  exact (proj1 (approve_removes_one sevenLoaded req Hnd Hin)).
Defined.

Lemma approve_settles_witness :
  let e := {| message := Some "network down" |} in
  error (handleApprove_resume alice (Rejected e) aliceSearched) = "network down".
Proof.
  intros e.
  apply (proj1 (proj2 (proj2 (approve_settles aliceSearched alice (Rejected e)))
                  e eq_refl) "network down");
    [reflexivity | discriminate].
Defined.

(** ** Scenarios *)

Example single_request_one_page :
  let s := setIsLoading false (setRequests [alice] initialState) in
  length (filteredRequests s) = 1%nat
  /\ totalPages s = 1
  /\ List.map id (displayedRequests s) = ["1"].
Proof. repeat split. Qed.

Example approve_succeeds :
  let s := setIsLoading false (setRequests [alice] initialState) in
  let s' := fst (run s [ClickApprove alice; AssignSettled alice (Fulfilled tt)]) in
  requests s' = [] /\ busy s' "1" = false.
Proof. vm_compute. split; reflexivity. Qed.

Example approve_fails_network_down :
  let s := setIsLoading false (setRequests [alice] initialState) in
  let e := {| message := Some "network down" |} in
  let s' := fst (run s [ClickApprove alice; AssignSettled alice (Rejected e)]) in
  error s' = "network down" /\ requests s' = [alice] /\ busy s' "1" = false.
Proof. vm_compute. repeat split; reflexivity. Qed.

(** An approval can leave the current page past the last one: the pager
    alone keeps the page in range, a removal does not bring it back. *)
Example approval_can_outrun_pager :
  let s := fst (run sevenLoaded
                  [ClickNext; ClickApprove (sampleRequest "7");
                   AssignSettled (sampleRequest "7") (Fulfilled tt)]) in
  currentPage s = 2 /\ totalPages s = 1 /\ displayedRequests s = [].
Proof. vm_compute. repeat split; reflexivity. Qed.

(** A request whose id names an inherited property of a plain object is
    busy from the start: its approve click issues no call. *)
Example inherited_key_is_busy :
  busy initialState "constructor" = true
  /\ snd (handleApprove_begin (sampleRequest "constructor") sevenLoaded) = [].
Proof. vm_compute. split; reflexivity. Qed.


(** * Further properties of the view *)

(** ** The rows of a page and the line "Showing a - b of n" *)

Section Rows.

Context {ops : StringOps}.

Lemma displayedRequests_take_drop (s : State) :
  1 <= currentPage s -> 0 <= pageSize s ->
  displayedRequests s
  = take (Z.to_nat (pageSize s))
      (drop (Z.to_nat ((currentPage s - 1) * pageSize s)) (filteredRequests s)).
Proof.
  intros Hp Hps. unfold displayedRequests.
  rewrite JSFacts.slice_take_drop by nia. do 2 f_equal. lia.
Qed.

Lemma displayedRequests_length (s : State) :
  1 <= currentPage s -> 0 <= pageSize s ->
  Z.of_nat (length (displayedRequests s))
  = Z.max 0 (Z.min (pageSize s)
               (Z.of_nat (length (filteredRequests s))
                - (currentPage s - 1) * pageSize s)).
Proof.
  intros Hp Hps. rewrite displayedRequests_take_drop by assumption.
  rewrite length_take, length_drop.
  assert (0 <= (currentPage s - 1) * pageSize s) by nia. lia.
Qed.

(** A page in range starts inside the filtered collection. *)
Lemma page_in_range_starts_inside (s : State) :
  0 < pageSize s -> filteredRequests s <> [] ->
  currentPage s <= totalPages s ->
  (currentPage s - 1) * pageSize s < Z.of_nat (length (filteredRequests s)).
Proof.
  intros Hps Hne Hle.
  destruct (totalPages_ceiling s Hps) as [c [[Hlo Hhi] Ht]].
  assert (0 < Z.of_nat (length (filteredRequests s)))
    by (destruct (filteredRequests s); [congruence | simpl; lia]).
  assert (1 <= c) by nia.
  rewrite Ht, Z.max_r in Hle by lia. nia.
Qed.

(** A page past the last one starts outside of it. *)
Lemma page_past_end_starts_outside (s : State) :
  0 < pageSize s -> totalPages s < currentPage s ->
  Z.of_nat (length (filteredRequests s)) <= (currentPage s - 1) * pageSize s.
Proof.
  intros Hps Hlt.
  destruct (totalPages_ceiling s Hps) as [c [[Hlo Hhi] Ht]].
  assert (c <= totalPages s) by lia. nia.
Qed.

(** X1. For a current page of at least 1 and a positive page size, the
    number of rows shown is the page size, or what is left of the
    filtered collection from the start of the page when that is less,
    or none when the page starts past the end. *)
Theorem page_row_count (s : State) :
  1 <= currentPage s -> 0 < pageSize s ->
  Z.of_nat (length (displayedRequests s))
  = Z.max 0 (Z.min (pageSize s)
               (Z.of_nat (length (filteredRequests s))
                - (currentPage s - 1) * pageSize s))
  /\ (currentPage s < totalPages s ->
      Z.of_nat (length (displayedRequests s)) = pageSize s).
Proof.
  intros Hp Hps.
  pose proof (displayedRequests_length s Hp ltac:(lia)) as Hlen.
  split; [exact Hlen|]. intros Hlt. rewrite Hlen.
  destruct (totalPages_ceiling s Hps) as [c [[Hlo Hhi] Ht]].
  assert (currentPage s <= c - 1) by lia. nia.
Qed.

(** X2. For a positive page size, a non-empty filtered collection and a
    current page between 1 and the total: the two numbers of "Showing
    a - b of n" satisfy 1 <= a <= b <= n, the rows shown are b - a + 1
    in number, and they are the filtered requests numbered a to b. *)
Theorem showing_matches_rows (s : State) :
  0 < pageSize s -> filteredRequests s <> [] ->
  1 <= currentPage s <= totalPages s ->
  1 <= showingFrom s <= showingTo s
  /\ showingTo s <= showingTotal s
  /\ Z.of_nat (length (displayedRequests s)) = showingTo s - showingFrom s + 1
  /\ displayedRequests s
     = take (Z.to_nat (showingTo s - showingFrom s + 1))
         (drop (Z.to_nat (showingFrom s - 1)) (filteredRequests s)).
Proof.
  intros Hps Hne [Hp Hle].
  pose proof (page_in_range_starts_inside s Hps Hne Hle) as Hin.
  pose proof (displayedRequests_length s Hp ltac:(lia)) as Hlen.
  assert (Hstart : 0 <= (currentPage s - 1) * pageSize s) by nia.
  assert (Hn : 0 < Z.of_nat (length (filteredRequests s))) by lia.
  unfold showingFrom, showingTo, showingTotal.
  destruct (Z.eqb_spec (Z.of_nat (length (filteredRequests s))) 0) as [E|_];
    [lia|].
  repeat split; try lia.
  rewrite displayedRequests_take_drop by lia.
  replace ((currentPage s - 1) * pageSize s + 1 - 1)
    with ((currentPage s - 1) * pageSize s) by lia.
  destruct (Z.le_gt_cases (currentPage s * pageSize s)
              (Z.of_nat (length (filteredRequests s)))) as [Hfull|Hlast].
  - do 2 f_equal. lia.
  - rewrite !take_ge; [reflexivity | |]; rewrite length_drop; lia.
Qed.

(** X3. When the collection is loaded and not empty but the query
    matches nothing, the view is the list, not the notice "No pending
    requests": it has no rows, a single page button, and reads
    "Showing 0 - 0 of 0". *)
Theorem no_match_shows_empty_list (s : State) :
  isLoading s = false -> requests s <> [] -> filteredRequests s = [] ->
  1 <= currentPage s -> 0 < pageSize s ->
  view s = ShowList
  /\ displayedRequests s = []
  /\ pageButtons s = [1]
  /\ showingFrom s = 0 /\ showingTo s = 0 /\ showingTotal s = 0.
Proof.
  intros Hl Hr Hf Hp Hps.
  assert (Ht : totalPages s = 1).
  { destruct (totalPages_ceiling s Hps) as [c [[Hlo Hhi] Ht]].
    rewrite Hf in Hlo, Hhi. simpl in Hlo, Hhi. rewrite Ht. nia. }
  split; [|split; [|split]].
  - unfold view. rewrite Hl. destruct (requests s); [congruence|reflexivity].
  - unfold displayedRequests. rewrite Hf. unfold JS.slice.
    now rewrite drop_nil, take_nil.
  - unfold pageButtons. rewrite Ht. reflexivity.
  - unfold showingFrom, showingTo, showingTotal. rewrite Hf. simpl.
    repeat split. nia.
Qed.

(** X4. For a current page of at least 1 and a positive page size: rows
    are shown exactly when the filtered collection is not empty and the
    current page is not past the total; on a page past the total of a
    non-empty filtered collection the line reads "Showing a - b" with b
    below a. *)
Theorem rows_shown_iff_page_in_range (s : State) :
  1 <= currentPage s -> 0 < pageSize s ->
  (displayedRequests s <> []
   <-> filteredRequests s <> [] /\ currentPage s <= totalPages s)
  /\ (filteredRequests s <> [] -> totalPages s < currentPage s ->
      showingTo s < showingFrom s).
Proof.
  intros Hp Hps.
  pose proof (displayedRequests_length s Hp ltac:(lia)) as Hlen.
  assert (Hstart : 0 <= (currentPage s - 1) * pageSize s) by nia.
  assert (Hnil : forall l : list CaseRequest, l <> [] <-> 0 < Z.of_nat (length l))
    by (intros [|x l]; simpl; split; (congruence || lia)).
  split.
  - rewrite !Hnil, Hlen. split.
    + intros H. split; [lia|].
      destruct (Z.le_gt_cases (currentPage s) (totalPages s)) as [|Hgt];
        [assumption|].
      pose proof (page_past_end_starts_outside s Hps ltac:(lia)). lia.
    + intros [Hn Hle]. apply Hnil in Hn.
      pose proof (page_in_range_starts_inside s Hps Hn Hle). lia.
  - intros Hn Hgt. pose proof (page_past_end_starts_outside s Hps Hgt) as Hout.
    apply Hnil in Hn. unfold showingFrom, showingTo.
    destruct (Z.eqb_spec (Z.of_nat (length (filteredRequests s))) 0); lia.
Qed.

Lemma filter_sublist {A} (f : A -> bool) (l : list A) :
  sublist (List.filter f l) l.
Proof.
  induction l as [|a l IH]; simpl; [constructor|].
  destruct (f a); now constructor.
Qed.

Lemma slice_sublist {A} (l : list A) (a b : Z) : sublist (JS.slice l a b) l.
Proof.
  unfold JS.slice. etransitivity; [apply sublist_take | apply sublist_drop].
Qed.

Lemma map_sublist {A B} (f : A -> B) (l k : list A) :
  sublist l k -> sublist (List.map f l) (List.map f k).
Proof. induction 1; simpl; now constructor. Qed.

Lemma displayed_sublist_requests (s : State) :
  sublist (displayedRequests s) (requests s).
Proof.
  unfold displayedRequests. etransitivity; [apply slice_sublist|].
  rewrite filteredRequests_filter. apply filter_sublist.
Qed.

(** X5. In every state the rows shown are a subsequence of the filtered
    collection, which is a subsequence of the collection, each in the
    order of the latter; so when the ids of the collection are distinct,
    so are the keys of the rows. *)
Theorem rows_are_subsequence (s : State) :
  sublist (displayedRequests s) (filteredRequests s)
  /\ sublist (filteredRequests s) (requests s)
  /\ (NoDup (List.map id (requests s)) ->
      NoDup (List.map id (displayedRequests s))).
Proof.
  split; [apply slice_sublist|]. split.
  - rewrite filteredRequests_filter. apply filter_sublist.
  - intros Hnd.
    exact (sublist_NoDup _ _ Hnd
             (map_sublist id _ _ (displayed_sublist_requests s))).
Qed.

End Rows.

(** ** The pager among the other events *)

Section Pager.

Context {ops : StringOps}.

Lemma setCurrentPage_same (s : State) (p : Z) :
  p = currentPage s -> setCurrentPage p s = s.
Proof. intros ->. destruct s; reflexivity. Qed.

Lemma setCurrentPage_twice (s : State) (p q : Z) :
  setCurrentPage p (setCurrentPage q s) = setCurrentPage p s.
Proof. reflexivity. Qed.

(** X6. From a current page between 1 and the total, every event other
    than the success of an approval, a click on a numbered button being
    one on a button that is shown, leaves the current page between 1 and
    the total: rows can only be left without a page by a removal. *)
Theorem only_removal_outruns_pager (s : State) (ev : Event) :
  1 <= currentPage s <= totalPages s ->
  pageOffered s ev ->
  removesRow ev = false ->
  1 <= currentPage (fst (step s ev)) <= totalPages (fst (step s ev)).
Proof.
  intros Hr Hp Hev.
  destruct ev as [|r|v|v| | |p|req|req r]; simpl fst.
  - exact Hr.
  - destruct r as [d|e]; [|exact Hr].
    pose proof (totalPages_ge_1 (loadRequests_resume (Fulfilled d) s)).
    simpl currentPage. lia.
  - pose proof (totalPages_ge_1 (onSearchChange v s)). simpl currentPage. lia.
  - pose proof (totalPages_ge_1 (onPageSizeChange v s)). simpl currentPage. lia.
  - apply (navigation_step_in_range s ClickPrev eq_refl Hr).
  - apply (navigation_step_in_range s ClickNext eq_refl Hr).
  - apply pageButtons_range in Hp. exact Hp.
  - unfold handleApprove_begin. destruct (busy s (id req)); exact Hr.
  - destruct r as [u|e]; [discriminate | exact Hr].
Qed.

(** X10. Next then Prev returns to the state it started from when the
    current page is at least 1 and below the total, and Prev then Next
    when it is above 1 and at most the total; at page 1 Prev changes
    nothing, and at the last page Next changes nothing. *)
Theorem prev_next_round_trip (s : State) :
  (1 <= currentPage s < totalPages s -> onPrev (onNext s) = s)
  /\ (1 < currentPage s <= totalPages s -> onNext (onPrev s) = s)
  /\ (currentPage s = 1 -> onPrev s = s)
  /\ (currentPage s = totalPages s -> onNext s = s).
Proof.
  repeat split; intros H; unfold onPrev, onNext.
  - rewrite setCurrentPage_twice. apply setCurrentPage_same. simpl. lia.
  - rewrite setCurrentPage_twice, totalPages_setCurrentPage.
    apply setCurrentPage_same. simpl. lia.
  - apply setCurrentPage_same. lia.
  - apply setCurrentPage_same. lia.
Qed.

End Pager.

(** ** Approvals among themselves and with the filter *)

Section ApprovalAlgebra.

Context {ops : StringOps}.

Lemma filter_filter_comm {A} (f g : A -> bool) (l : list A) :
  List.filter f (List.filter g l) = List.filter g (List.filter f l).
Proof.
  induction l as [|a l IH]; [reflexivity|]. simpl.
  destruct (f a) eqn:Hf, (g a) eqn:Hg; simpl; rewrite ?Hf, ?Hg, IH; reflexivity.
Qed.

Lemma filter_length_le {A} (f : A -> bool) (l : list A) :
  (length (List.filter f l) <= length l)%nat.
Proof. apply sublist_length, filter_sublist. Qed.

(** X8. Two approvals of requests with different ids settle in either
    order to the same collection, the same busy map, and the same state
    altogether unless both fail; when both fail the states differ at most
    in the error message, which is that of the approval settling last. *)
Theorem approvals_settle_in_any_order
    (s : State) (req1 req2 : CaseRequest) (r1 r2 : Settled unit) :
  id req1 <> id req2 ->
  let a := handleApprove_resume req1 r1 (handleApprove_resume req2 r2 s) in
  let b := handleApprove_resume req2 r2 (handleApprove_resume req1 r1 s) in
  requests a = requests b
  /\ approving a = approving b
  /\ a = setError (error a) b
  /\ ((exists v, r1 = Fulfilled v) \/ (exists v, r2 = Fulfilled v) -> a = b)
  /\ (forall e1 e2, r1 = Rejected e1 -> r2 = Rejected e2 ->
      error a = JS.or_else (message e1) "Approval failed"
      /\ error b = JS.or_else (message e2) "Approval failed").
Proof.
  intros Hne a b. subst a b.
  assert (Hm : forall (m : gmap string bool) x y,
             <[id req1 := x]> (<[id req2 := y]> m)
             = <[id req2 := y]> (<[id req1 := x]> m))
    by (intros; apply insert_insert_ne; congruence).
  assert (Hf : forall l : list CaseRequest,
             List.filter (fun r => negb (String.eqb (id r) (id req1)))
               (List.filter (fun r => negb (String.eqb (id r) (id req2))) l)
             = List.filter (fun r => negb (String.eqb (id r) (id req2)))
                 (List.filter (fun r => negb (String.eqb (id r) (id req1))) l))
    by (intros; apply filter_filter_comm).
  split; [|split; [|split; [|split]]].
  - destruct r1, r2; simpl; rewrite ?Hf; reflexivity.
  - destruct r1, r2; simpl; apply Hm.
  - destruct r1, r2; unfold handleApprove_resume, setError; simpl;
      rewrite ?Hf, Hm; reflexivity.
  - intros Hok.
    destruct r1 as [u1|e1], r2 as [u2|e2];
      unfold handleApprove_resume; simpl; rewrite ?Hf, Hm; try reflexivity.
    destruct Hok as [[v Hv]|[v Hv]]; discriminate.
  - intros e1 e2 -> ->. split; reflexivity.
Qed.

(** X9. After the success of an approval the filtered collection is the
    former one without the requests of the approved id: no request
    enters it, and for a positive page size the total page count does
    not grow. *)
Theorem removal_commutes_with_filter (s : State) (req : CaseRequest) (v : unit) :
  let s' := handleApprove_resume req (Fulfilled v) s in
  filteredRequests s'
  = List.filter (fun r => negb (String.eqb (id r) (id req))) (filteredRequests s)
  /\ sublist (filteredRequests s') (filteredRequests s)
  /\ (0 < pageSize s -> totalPages s' <= totalPages s).
Proof.
  intros s'.
  assert (Hf : filteredRequests s'
               = List.filter (fun r => negb (String.eqb (id r) (id req)))
                   (filteredRequests s)).
  { rewrite !filteredRequests_filter. subst s'. simpl.
    apply filter_filter_comm. }
  split; [exact Hf|]. split; [rewrite Hf; apply filter_sublist|].
  intros Hps.
  assert (Hps' : 0 < pageSize s') by exact Hps.
  destruct (totalPages_ceiling s Hps) as [c [[Hlo Hhi] Ht]].
  destruct (totalPages_ceiling s' Hps') as [c' [[Hlo' Hhi'] Ht']].
  change (pageSize s') with (pageSize s) in *.
  pose proof (filter_length_le (fun r => negb (String.eqb (id r) (id req)))
                (filteredRequests s)) as Hlen.
  rewrite <- Hf in Hlen.
  assert (c' <= c) by nia. lia.
Qed.

End ApprovalAlgebra.

(** ** The error banner *)

Section Banner.

Context {ops : StringOps}.

Lemma or_else_nonempty (a : option string) (d : string) :
  d <> "" -> JS.or_else a d <> "".
Proof. intros Hd. destruct a as [[|c v]|]; simpl; congruence. Qed.

Lemma step_keeps_banner (s : State) (ev : Event) :
  error s <> "" -> loadsRows ev = false -> error (fst (step s ev)) <> "".
Proof.
  intros He Hev. destruct ev as [|r|v|v| | |p|req|req r]; simpl; try exact He.
  - destruct r as [d|e]; [discriminate|]. simpl.
    apply or_else_nonempty. discriminate.
  - unfold handleApprove_begin. destruct (busy s (id req)); exact He.
  - destruct r as [u|e]; simpl; [exact He|].
    apply or_else_nonempty. discriminate.
Qed.

(** X7. The success of an approval leaves the error message as it is,
    and a failing call never sets an empty one; so an error message that
    is shown stays shown, possibly replaced by another, under every
    event other than the success of the fetch. *)
Theorem banner_stays_until_load_succeeds (s : State) :
  (forall req v, error (handleApprove_resume req (Fulfilled v) s) = error s)
  /\ (forall req e, error (handleApprove_resume req (Rejected e) s) <> "")
  /\ (forall e, error (loadRequests_resume (Rejected e) s) <> "")
  /\ (error s <> "" ->
      forall ev, loadsRows ev = false -> error (fst (step s ev)) <> "").
Proof.
  split; [reflexivity|]. split; [|split].
  - intros req e. simpl. apply or_else_nonempty. discriminate.
  - intros e. simpl. apply or_else_nonempty. discriminate.
  - intros He ev Hev. apply step_keeps_banner; assumption.
Qed.

End Banner.

(** ** The request client *)

Section Client.

Lemma append_length (a b : string) :
  String.length (a ++ b) = (String.length a + String.length b)%nat.
Proof.
  induction a as [|c a IH]; [reflexivity|].
  rewrite JSFacts.append_cons. simpl. now rewrite IH.
Qed.

Lemma append_inv_head (p a b : string) :
  (p ++ a)%string = (p ++ b)%string -> a = b.
Proof.
  induction p as [|c p IH]; [now rewrite !JSFacts.append_empty|].
  rewrite !JSFacts.append_cons. intros H. injection H as H. auto.
Qed.

Lemma append_inv_tail (a b t : string) :
  (a ++ t)%string = (b ++ t)%string -> a = b.
Proof.
  revert b. induction a as [|c a IH]; intros [|d b] H.
  - reflexivity.
  - apply (f_equal String.length) in H.
    rewrite JSFacts.append_empty, JSFacts.append_cons in H. simpl in H.
    rewrite append_length in H. lia.
  - apply (f_equal String.length) in H.
    rewrite JSFacts.append_empty, JSFacts.append_cons in H. simpl in H.
    rewrite append_length in H. lia.
  - rewrite !JSFacts.append_cons in H. injection H as -> H.
    f_equal. apply IH, H.
Qed.

(** X11. The request a call sends determines the call: the fetch and an
    assignment never send the same request, and two assignments send the
    same request only for the same case id and the same address. *)
Theorem http_request_injective (c1 c2 : Call) :
  http_request c1 = http_request c2 -> c1 = c2.
Proof.
  destruct c1 as [|k1 a1], c2 as [|k2 a2]; simpl; intros H;
    try reflexivity; try discriminate.
  injection H as Hurl ->. f_equal.
  apply append_inv_head, append_inv_tail in Hurl. exact Hurl.
Qed.

End Client.

(** ** The placeholders of a row *)

Section Placeholders.

Context {ops : StringOps}.

Lemma substring_of_empty (q : string) : substring_of q "" -> q = "".
Proof.
  intros [a [b H]]. destruct a as [|c a]; [|discriminate].
  rewrite JSFacts.append_empty in H. destruct q; [reflexivity|discriminate].
Qed.

Lemma or_else_empty_default (v : string) : JS.or_else (Some v) "" = v.
Proof. destruct v; reflexivity. Qed.

(** X12. When lower-casing maps the empty string to itself: a request
    without a name and without an email is shown as "Unknown Lawyer" and
    "-", and it passes a query that is not empty after trimming and
    lower-casing exactly when that query is a substring of its
    lower-cased case id or of its lower-cased address; the placeholders
    are not searched. *)
Theorem placeholders_are_not_searched (term : string) (r : CaseRequest) :
  toLowerCase "" = "" ->
  lawyerName r = None \/ lawyerName r = Some "" ->
  lawyerEmail r = None \/ lawyerEmail r = Some "" ->
  toLowerCase (trim term) <> "" ->
  rowName r = "Unknown Lawyer"
  /\ rowEmail r = "-"
  /\ (matchesSearch term r = true <->
      substring_of (toLowerCase (trim term)) (toLowerCase (caseId r))
      \/ substring_of (toLowerCase (trim term)) (toLowerCase (lawyerAddress r))).
Proof.
  intros Hlow Hn He Hq.
  assert (Hn' : JS.or_else (lawyerName r) "" = ""
                /\ rowName r = "Unknown Lawyer")
    by (unfold rowName; destruct Hn as [-> | ->]; split; reflexivity).
  assert (He' : JS.or_else (lawyerEmail r) "" = "" /\ rowEmail r = "-")
    by (unfold rowEmail; destruct He as [-> | ->]; split; reflexivity).
  destruct Hn' as [Hn1 Hn2], He' as [He1 He2].
  split; [exact Hn2|]. split; [exact He2|].
  pose proof (matchesSearch_spec term r) as Hspec. cbv zeta in Hspec.
  rewrite Hspec, Hn1, He1, Hlow, or_else_empty_default.
  split.
  - intros [H|[H|[H|[H|H]]]]; try tauto.
    + apply substring_of_empty in H. tauto.
    + apply substring_of_empty in H. tauto.
  - tauto.
Qed.

End Placeholders.

(** ** The mounted component and its calls in flight *)

Section Sessions.

Context {ops : StringOps}.

Implicit Types (ss : Session) (req : CaseRequest) (i : string).

Lemma elem_of_ids (l : list CaseRequest) i :
  i ∈ List.map id l <-> exists r, r ∈ l /\ id r = i.
Proof.
  rewrite list_elem_of_In, List.in_map_iff. split.
  - intros [r [Hr Hin]]. exists r. split; [now apply list_elem_of_In | exact Hr].
  - intros [r [Hin Hr]]. exists r. split; [exact Hr | now apply list_elem_of_In].
Qed.

Lemma removeOne_sublist req (l : list CaseRequest) :
  sublist (removeOne req l) l.
Proof.
  induction l as [|x l IH]; simpl; [constructor|].
  case_bool_decide; now constructor.
Qed.

Lemma removeOne_elem req (l : list CaseRequest) :
  NoDup (List.map id l) -> req ∈ l ->
  forall x, x ∈ removeOne req l <-> x ∈ l /\ id x <> id req.
Proof.
  induction l as [|a l IH]; intros Hnd Hin x; [now apply elem_of_nil in Hin|].
  simpl in Hnd. apply NoDup_cons in Hnd as [Hnot Hnd]. simpl.
  case_bool_decide as Ha.
  - subst a. rewrite elem_of_cons. split.
    + intros Hx. split; [now right|]. intros E. apply Hnot.
      apply elem_of_ids. eauto.
    + intros [[->|Hx] Hne]; [congruence | exact Hx].
  - apply elem_of_cons in Hin as [->|Hin]; [congruence|].
    rewrite !elem_of_cons, (IH Hnd Hin). split.
    + intros [->|[Hx Hne]]; [|tauto]. split; [now left|].
      intros E. apply Hnot. rewrite E. apply elem_of_ids. eauto.
    + tauto.
Qed.

Lemma elem_nonempty {A} (x : A) (l : list A) : x ∈ l -> l <> [].
Proof. intros H ->. now apply elem_of_nil in H. Qed.

Lemma deliver_Some ss ev ss' :
  deliver ss ev = Some ss' ->
  enabled ss ev = true
  /\ ui ss' = fst (step (ui ss) ev)
  /\ fetching ss' = match ev with LoadSettled _ => false | _ => fetching ss end
  /\ inFlight ss' = match ev with
                    | ClickApprove req => req :: inFlight ss
                    | AssignSettled req _ => removeOne req (inFlight ss)
                    | _ => inFlight ss
                    end.
Proof.
  unfold deliver. destruct (enabled ss ev); [|discriminate].
  intros H. injection H as <-. repeat split.
Qed.

Lemma listed_not_loading (s : State) :
  match view s with ShowList => true | _ => false end = true ->
  isLoading s = false.
Proof. unfold view. destruct (isLoading s); [discriminate | reflexivity]. Qed.

Lemma mounted_inv : session_inv mounted.
Proof.
  split; simpl; try reflexivity; try lia.
  - constructor.
  - intros i. rewrite lookup_empty. split; [discriminate|].
    intros H. now apply elem_of_nil in H.
  - intros req H. now apply elem_of_nil in H.
  - unfold pageSizeOptions. set_solver.
Qed.

Lemma deliver_inv ss ev ss' :
  session_inv ss -> deliver ss ev = Some ss' -> session_inv ss'.
Proof.
  intros [Hload Hfetch Hdist Hbusy Hpres Hpage Hsize] Hd.
  apply deliver_Some in Hd as (Hen & Hui & Hf & Hfl).
  destruct ev as [|r|v|v| | |p|req|req r]; simpl in Hen, Hui.
  - discriminate.
  - (* the fetch settles *)
    specialize (Hfetch Hen).
    split; rewrite ?Hui, ?Hf, ?Hfl, ?Hfetch.
    + destruct r; reflexivity.
    + discriminate.
    + constructor.
    + intros i. rewrite <- Hfetch, <- Hbusy. destruct r; reflexivity.
    + intros req H. now apply elem_of_nil in H.
    + destruct r; simpl; [lia | exact Hpage].
    + destruct r; exact Hsize.
  - split; rewrite ?Hui, ?Hf, ?Hfl; simpl; try assumption. lia.
  - split; rewrite ?Hui, ?Hf, ?Hfl; simpl; try assumption; [lia|].
    now apply bool_decide_eq_true in Hen.
  - split; rewrite ?Hui, ?Hf, ?Hfl; simpl; try assumption. lia.
  - split; rewrite ?Hui, ?Hf, ?Hfl; simpl; try assumption.
    pose proof (totalPages_ge_1 (ui ss)). lia.
  - split; rewrite ?Hui, ?Hf, ?Hfl; simpl; try assumption.
    apply andb_true_iff in Hen as [_ Hp].
    apply bool_decide_eq_true, list_elem_of_In, pageButtons_range in Hp. lia.
  - (* an approve click *)
    apply andb_true_iff in Hen as [Hen Hidle].
    apply andb_true_iff in Hen as [Hlist Hin].
    apply negb_true_iff in Hidle. apply bool_decide_eq_true in Hin.
    apply listed_not_loading in Hlist.
    unfold handleApprove_begin in Hui. rewrite Hidle in Hui. simpl in Hui.
    assert (Hfresh : id req ∉ List.map id (inFlight ss)).
    { intros H. apply Hbusy in H. unfold busy, JS.truthy_at in Hidle.
      rewrite H in Hidle. discriminate. }
    split; rewrite ?Hui, ?Hf, ?Hfl; simpl.
    + exact Hload.
    + intros E. congruence.
    + apply NoDup_cons. split; assumption.
    + intros i. rewrite elem_of_cons, <- Hbusy.
      destruct (decide (id req = i)) as [->|Hne].
      * rewrite lookup_insert_eq. tauto.
      * rewrite lookup_insert_ne by exact Hne. split; [tauto|].
        intros [E|H]; [congruence | exact H].
    + intros x Hx. apply elem_of_cons in Hx as [->|Hx]; [|now apply Hpres].
      eapply elem_of_sublist; [exact Hin | apply displayed_sublist_requests].
    + exact Hpage.
    + exact Hsize.
  - (* an approval settles *)
    apply bool_decide_eq_true in Hen.
    assert (Hnf : fetching ss = false).
    { destruct (fetching ss); [|reflexivity].
      rewrite Hfetch in Hen by reflexivity. now apply elem_of_nil in Hen. }
    pose proof (removeOne_elem req (inFlight ss) Hdist Hen) as Hrem.
    assert (Happ : approving (handleApprove_resume req r (ui ss))
                   = <[id req := false]> (approving (ui ss)))
      by (destruct r; reflexivity).
    split; rewrite ?Hui, ?Hf, ?Hfl.
    + rewrite <- Hload. destruct r; reflexivity.
    + congruence.
    + exact (sublist_NoDup _ _ Hdist
               (map_sublist id _ _ (removeOne_sublist req (inFlight ss)))).
    + intros i. rewrite Happ, elem_of_ids.
      destruct (decide (id req = i)) as [<-|Hne].
      * rewrite lookup_insert_eq. split; [discriminate|].
        intros [x [Hx E]]. apply Hrem in Hx. tauto.
      * rewrite lookup_insert_ne by exact Hne. rewrite Hbusy, elem_of_ids.
        split; intros [x [Hx E]]; exists x; (split; [|exact E]).
        -- apply Hrem. split; [exact Hx | congruence].
        -- apply Hrem in Hx. tauto.
    + intros x Hx. apply Hrem in Hx as [Hx Hne]. apply Hpres in Hx.
      destruct r as [u|e]; simpl; [|exact Hx].
      apply list_elem_of_In, List.filter_In. split.
      * now apply list_elem_of_In.
      * apply negb_true_iff, String.eqb_neq. exact Hne.
    + destruct r; exact Hpage.
    + destruct r; exact Hsize.
Qed.

Lemma sessions_inv (P : Event -> Prop) ss : sessions P ss -> session_inv ss.
Proof.
  induction 1 as [|ss ev ss' _ IH _ Hd]; [apply mounted_inv|].
  eapply deliver_inv; eassumption.
Qed.

End Sessions.

Section SessionFacts.

Context {ops : StringOps}.

Implicit Types (ss : Session) (req : CaseRequest) (i : string).

Lemma sessions_deliverAll (P : Event -> Prop) ss evs ss' :
  sessions P ss -> Forall P evs -> deliverAll ss evs = Some ss' ->
  sessions P ss'.
Proof.
  revert ss. induction evs as [|ev evs IH]; intros ss Hs HP Hd; simpl in Hd.
  - now injection Hd as <-.
  - apply Forall_cons in HP as [Hev HP].
    destruct (deliver ss ev) as [ss1|] eqn:H1; [|discriminate].
    apply (IH ss1); [|assumption|assumption].
    eapply sessions_deliver; eassumption.
Qed.

Lemma sessions_distinct ss :
  sessions distinctIds ss -> NoDup (List.map id (requests (ui ss))).
Proof.
  induction 1 as [|ss ev ss' _ IH HP Hd]; [constructor|].
  apply deliver_Some in Hd as (Hen & Hui & _ & _). rewrite Hui.
  destruct ev as [|r|v|v| | |p|req|req r]; simpl; try exact IH.
  - destruct r as [[l|]|e]; simpl; [exact HP | constructor | exact IH].
  - unfold handleApprove_begin. destruct (busy (ui ss) (id req)); exact IH.
  - apply (approve_keeps_unique_ids (ui ss) req r IH).
Qed.

(** Once the fetch has settled it stays settled; from then on the
    collection only shrinks and an error message stays. *)
Lemma after_load_deliver ss ev ss' :
  fetching ss = false -> deliver ss ev = Some ss' ->
  fetching ss' = false
  /\ sublist (requests (ui ss')) (requests (ui ss))
  /\ (error (ui ss) <> "" -> error (ui ss') <> "").
Proof.
  intros Hf Hd. apply deliver_Some in Hd as (Hen & Hui & Hf' & _).
  assert (Hl : loadsRows ev = false).
  { destruct ev as [|r|v|v| | |p|req|req r]; try reflexivity.
    simpl in Hen. congruence. }
  split; [|split].
  - rewrite Hf'. destruct ev; try exact Hf. reflexivity.
  - rewrite Hui. destruct ev as [|r|v|v| | |p|req|req r]; simpl;
      try reflexivity.
    + simpl in Hen. congruence.
    + unfold handleApprove_begin. destruct (busy (ui ss) (id req)); reflexivity.
    + destruct r; simpl; [apply filter_sublist | reflexivity].
  - intros He. rewrite Hui. apply step_keeps_banner; assumption.
Qed.

Lemma after_load_deliverAll ss evs ss' :
  fetching ss = false -> deliverAll ss evs = Some ss' ->
  fetching ss' = false
  /\ sublist (requests (ui ss')) (requests (ui ss))
  /\ (error (ui ss) <> "" -> error (ui ss') <> "").
Proof.
  revert ss. induction evs as [|ev evs IH]; intros ss Hf Hd; simpl in Hd.
  - injection Hd as <-. repeat split; [exact Hf | reflexivity | auto].
  - destruct (deliver ss ev) as [ss1|] eqn:H1; [|discriminate].
    destruct (after_load_deliver ss ev ss1 Hf H1) as (Hf1 & Hs1 & He1).
    destruct (IH ss1 Hf1 Hd) as (Hf2 & Hs2 & He2).
    repeat split; [exact Hf2 | etransitivity; eassumption | auto].
Qed.

(** X13. In every session of the mounted component: the loading flag is
    set exactly while the fetch is in flight, and then no approval is in
    flight and no approve click is possible; the approvals in flight
    have distinct ids; and the ids marked true in the busy map are
    exactly the ids of the approvals in flight. *)
Theorem busy_map_mirrors_calls_in_flight (P : Event -> Prop) (ss : Session) :
  sessions P ss ->
  isLoading (ui ss) = fetching ss
  /\ (fetching ss = true ->
      inFlight ss = [] /\ forall req, deliver ss (ClickApprove req) = None)
  /\ NoDup (List.map id (inFlight ss))
  /\ (forall i, approving (ui ss) !! i = Some true
                <-> exists req, req ∈ inFlight ss /\ id req = i).
Proof.
  intros Hs. destruct (sessions_inv P ss Hs)
    as [Hload Hfetch Hdist Hbusy _ _ _].
  split; [exact Hload|]. split; [|split; [exact Hdist|]].
  - intros Hf. split; [auto|]. intros req. unfold deliver. simpl.
    unfold view. rewrite Hload, Hf. reflexivity.
  - intros i. rewrite Hbusy. apply elem_of_ids.
Qed.

(** X14. In every session in which the fetch has answered with requests
    of distinct ids: the ids of the collection are distinct, every
    approval in flight is for a request still in the collection, and
    the success of an approval in flight removes exactly one row, the
    one of its id, leaving the others in order. *)
Theorem each_success_removes_one_row (ss : Session) :
  sessions distinctIds ss ->
  NoDup (List.map id (requests (ui ss)))
  /\ (forall req, req ∈ inFlight ss -> req ∈ requests (ui ss))
  /\ forall req v ss',
       deliver ss (AssignSettled req (Fulfilled v)) = Some ss' ->
       (length (requests (ui ss')) + 1 = length (requests (ui ss)))%nat
       /\ (exists l1 l2, requests (ui ss) = (l1 ++ req :: l2)%list
                         /\ requests (ui ss') = (l1 ++ l2)%list)
       /\ forall r, r ∈ requests (ui ss') -> id r <> id req.
Proof.
  intros Hs. pose proof (sessions_distinct ss Hs) as Hnd.
  destruct (sessions_inv _ ss Hs) as [_ _ Hdist _ Hpres _ _].
  split; [exact Hnd|]. split; [exact Hpres|].
  intros req v ss' Hd. apply deliver_Some in Hd as (Hen & Hui & _ & _).
  simpl in Hen. apply bool_decide_eq_true in Hen.
  pose proof (Hpres req Hen) as Hin.
  destruct (remove_by_id (requests (ui ss)) (id req) Hnd)
    as [l1 [r [l2 [Hl [Hr Hfil]]]]];
    [exists req; split; [now apply list_elem_of_In | reflexivity]|].
  assert (r = req) as ->.
  { rewrite Hl in Hnd, Hin. clear -Hnd Hin Hr.
    apply elem_of_app in Hin as [Hin|Hin].
    - rewrite List.map_app in Hnd. apply NoDup_app in Hnd as (_ & Hd & _).
      exfalso. apply (Hd (id req)).
      + apply elem_of_ids. eauto.
      + simpl. rewrite Hr. apply elem_of_cons. now left.
    - apply elem_of_cons in Hin as [->|Hin]; [reflexivity|].
      rewrite List.map_app in Hnd. apply NoDup_app in Hnd as (_ & _ & Hd).
      simpl in Hd. apply NoDup_cons in Hd as [Hd _].
      exfalso. apply Hd. rewrite Hr. apply elem_of_ids. eauto. }
  rewrite Hui. simpl. rewrite Hfil, Hl. split; [|split].
  - rewrite !length_app. simpl. lia.
  - exists l1, l2. split; reflexivity.
  - intros x Hx. rewrite <- Hfil in Hx.
    apply list_elem_of_In, List.filter_In in Hx as [_ Hx].
    apply negb_true_iff, String.eqb_neq in Hx. exact Hx.
Qed.

(** X15. In every session of the mounted component the current page is
    at least 1 and the page size is one of 6, 8 and 12; hence the rows
    shown are at most a page size in number and are the filtered
    requests from index (currentPage - 1) * pageSize on. *)
Theorem session_page_is_well_formed (P : Event -> Prop) (ss : Session) :
  sessions P ss ->
  1 <= currentPage (ui ss)
  /\ In (pageSize (ui ss)) pageSizeOptions
  /\ Z.of_nat (length (displayedRequests (ui ss))) <= pageSize (ui ss)
  /\ displayedRequests (ui ss)
     = take (Z.to_nat (pageSize (ui ss)))
         (drop (Z.to_nat ((currentPage (ui ss) - 1) * pageSize (ui ss)))
            (filteredRequests (ui ss))).
Proof.
  intros Hs. destruct (sessions_inv P ss Hs) as [_ _ _ _ _ Hpage Hsize].
  apply list_elem_of_In in Hsize.
  assert (Hps : 0 < pageSize (ui ss))
    by (unfold pageSizeOptions in Hsize; simpl in Hsize; lia).
  split; [exact Hpage|]. split; [exact Hsize|]. split.
  - rewrite displayedRequests_length by lia. lia.
  - apply displayedRequests_take_drop; lia.
Qed.

(** X16. Once the fetch has settled, an error message that is shown is
    never cleared: after any events the session accepts, the fetch is
    still settled and the error message is not empty. *)
Theorem banner_is_never_dismissed (ss : Session) (evs : list Event) (ss' : Session) :
  fetching ss = false -> error (ui ss) <> "" ->
  deliverAll ss evs = Some ss' ->
  fetching ss' = false /\ error (ui ss') <> "".
Proof.
  intros Hf He Hd.
  destruct (after_load_deliverAll ss evs ss' Hf Hd) as (Hf' & _ & He').
  split; [exact Hf' | exact (He' He)].
Qed.

(** X17. Once the fetch has settled, no request enters the collection:
    after any events the session accepts, the collection is a
    subsequence of the former one. *)
Theorem collection_only_shrinks (ss : Session) (evs : list Event) (ss' : Session) :
  fetching ss = false ->
  deliverAll ss evs = Some ss' ->
  sublist (requests (ui ss')) (requests (ui ss))
  /\ (length (requests (ui ss')) <= length (requests (ui ss)))%nat.
Proof.
  intros Hf Hd.
  destruct (after_load_deliverAll ss evs ss' Hf Hd) as (_ & Hsub & _).
  split; [exact Hsub | apply sublist_length, Hsub].
Qed.

End SessionFacts.

(** ** The further properties at the sample data *)

Lemma sevenRequests_distinct : NoDup (List.map id sevenRequests).
Proof.
  apply NoDup_ListNoDup. vm_compute.
  repeat (apply List.NoDup_cons;
          [cbn; intros H; repeat (destruct H as [H|H]; [discriminate H|]);
           exact H|]).
  apply List.NoDup_nil.
Qed.

Lemma sampleSession_delivered :
  deliverAll mounted sampleEvents = Some sampleSession.
Proof. vm_compute. reflexivity. Qed.

Lemma sampleSession_sessions : sessions distinctIds sampleSession.
Proof.
  apply (sessions_deliverAll distinctIds mounted sampleEvents).
  - constructor.
  - constructor; [exact sevenRequests_distinct|].
    constructor; [exact I|]. constructor; [exact I|]. constructor.
  - exact sampleSession_delivered.
Qed.

Lemma page_row_count_witness :
  1 <= currentPage secondPage
  /\ 0 < pageSize secondPage
  /\ Z.of_nat (length (displayedRequests secondPage))
     = Z.max 0 (Z.min (pageSize secondPage)
                  (Z.of_nat (length (filteredRequests secondPage))
                   - (currentPage secondPage - 1) * pageSize secondPage)).
Proof.
  assert (H1 : 1 <= currentPage secondPage) by (vm_compute; discriminate).
  assert (H2 : 0 < pageSize secondPage) by (vm_compute; reflexivity).
  split; [exact H1|]. split; [exact H2|].
  exact (proj1 (page_row_count secondPage H1 H2)).
Defined.

Lemma showing_matches_rows_witness :
  0 < pageSize secondPage
  /\ filteredRequests secondPage <> []
  /\ 1 <= currentPage secondPage <= totalPages secondPage
  /\ Z.of_nat (length (displayedRequests secondPage))
     = showingTo secondPage - showingFrom secondPage + 1.
Proof.
  assert (H1 : 0 < pageSize secondPage) by (vm_compute; reflexivity).
  assert (H2 : filteredRequests secondPage <> []) by (vm_compute; discriminate).
  assert (H3 : 1 <= currentPage secondPage <= totalPages secondPage)
    by (vm_compute; split; discriminate).
  split; [exact H1|]. split; [exact H2|]. split; [exact H3|].
  exact (proj1 (proj2 (proj2 (showing_matches_rows secondPage H1 H2 H3)))).
Defined.

Lemma no_match_shows_empty_list_witness :
  isLoading nothingFound = false
  /\ requests nothingFound <> []
  /\ filteredRequests nothingFound = []
  /\ view nothingFound = ShowList
  /\ pageButtons nothingFound = [1].
Proof.
  assert (H1 : isLoading nothingFound = false) by reflexivity.
  assert (H2 : requests nothingFound <> []) by (vm_compute; discriminate).
  assert (H3 : filteredRequests nothingFound = []) by (vm_compute; reflexivity).
  assert (H4 : 1 <= currentPage nothingFound) by (vm_compute; discriminate).
  assert (H5 : 0 < pageSize nothingFound) by (vm_compute; reflexivity).
  pose proof (no_match_shows_empty_list nothingFound H1 H2 H3 H4 H5) as H.
  split; [exact H1|]. split; [exact H2|]. split; [exact H3|].
  split; [exact (proj1 H) | exact (proj1 (proj2 (proj2 H)))].
Defined.

Lemma rows_shown_iff_page_in_range_witness :
  1 <= currentPage secondPage
  /\ 0 < pageSize secondPage
  /\ (displayedRequests secondPage <> []
      <-> filteredRequests secondPage <> []
          /\ currentPage secondPage <= totalPages secondPage).
Proof.
  assert (H1 : 1 <= currentPage secondPage) by (vm_compute; discriminate).
  assert (H2 : 0 < pageSize secondPage) by (vm_compute; reflexivity).
  split; [exact H1|]. split; [exact H2|].
  exact (proj1 (rows_shown_iff_page_in_range secondPage H1 H2)).
Defined.

Lemma rows_are_subsequence_witness :
  NoDup (List.map id (requests secondPage))
  /\ NoDup (List.map id (displayedRequests secondPage)).
Proof.
  assert (H : NoDup (List.map id (requests secondPage)))
    by exact sevenRequests_distinct.
  split; [exact H|].
  exact (proj2 (proj2 (rows_are_subsequence secondPage)) H).
Defined.

Lemma only_removal_outruns_pager_witness :
  1 <= currentPage sevenLoaded <= totalPages sevenLoaded
  /\ pageOffered sevenLoaded (ClickPage 2)
  /\ removesRow (ClickPage 2) = false
  /\ 1 <= currentPage (fst (step sevenLoaded (ClickPage 2)))
       <= totalPages (fst (step sevenLoaded (ClickPage 2))).
Proof.
  assert (H1 : 1 <= currentPage sevenLoaded <= totalPages sevenLoaded)
    by (vm_compute; split; discriminate).
  assert (H2 : pageOffered sevenLoaded (ClickPage 2))
    by (vm_compute; tauto).
  split; [exact H1|]. split; [exact H2|]. split; [reflexivity|].
  exact (only_removal_outruns_pager sevenLoaded (ClickPage 2) H1 H2 eq_refl).
Defined.

Lemma banner_stays_until_load_succeeds_witness :
  error staleError <> ""
  /\ loadsRows ClickNext = false
  /\ error (fst (step staleError ClickNext)) <> "".
Proof.
  assert (H : error staleError <> "") by (vm_compute; discriminate).
  split; [exact H|]. split; [reflexivity|].
  exact (proj2 (proj2 (proj2 (banner_stays_until_load_succeeds staleError)))
           H ClickNext eq_refl).
Defined.

Lemma approvals_settle_in_any_order_witness :
  let req1 := sampleRequest "3" in
  let req2 := sampleRequest "5" in
  let e := {| message := Some "network down" |} in
  id req1 <> id req2
  /\ requests (handleApprove_resume req1 (Fulfilled tt)
                 (handleApprove_resume req2 (Rejected e) sevenLoaded))
     = requests (handleApprove_resume req2 (Rejected e)
                   (handleApprove_resume req1 (Fulfilled tt) sevenLoaded)).
Proof.
  intros req1 req2 e.
  assert (H : id req1 <> id req2) by (vm_compute; discriminate).
  split; [exact H|].
  exact (proj1 (approvals_settle_in_any_order sevenLoaded req1 req2
                  (Fulfilled tt) (Rejected e) H)).
Defined.

Lemma removal_commutes_with_filter_witness :
  let s' := handleApprove_resume (sampleRequest "7") (Fulfilled tt) sevenLoaded in
  0 < pageSize sevenLoaded /\ totalPages s' <= totalPages sevenLoaded.
Proof.
  intros s'.
  assert (H : 0 < pageSize sevenLoaded) by (vm_compute; reflexivity).
  split; [exact H|].
  exact (proj2 (proj2 (removal_commutes_with_filter sevenLoaded
                         (sampleRequest "7") tt)) H).
Defined.

Lemma prev_next_round_trip_witness :
  1 <= currentPage sevenLoaded < totalPages sevenLoaded
  /\ onPrev (onNext sevenLoaded) = sevenLoaded.
Proof.
  assert (H : 1 <= currentPage sevenLoaded < totalPages sevenLoaded)
    by (vm_compute; split; [discriminate | reflexivity]).
  split; [exact H|].
  exact (proj1 (prev_next_round_trip sevenLoaded) H).
Defined.

Lemma http_request_injective_witness :
  http_request (assignLawyer "C1" "0xA") = http_request (assignLawyer "C1" "0xA")
  /\ assignLawyer "C1" "0xA" = assignLawyer "C1" "0xA".
Proof.
  split; [reflexivity|].
  exact (http_request_injective (assignLawyer "C1" "0xA")
           (assignLawyer "C1" "0xA") eq_refl).
Defined.

Lemma placeholders_are_not_searched_witness :
  toLowerCase "" = ""
  /\ toLowerCase (trim "Unknown") <> ""
  /\ rowName anonymous = "Unknown Lawyer"
  /\ (matchesSearch "Unknown" anonymous = true <->
      substring_of (toLowerCase (trim "Unknown")) (toLowerCase (caseId anonymous))
      \/ substring_of (toLowerCase (trim "Unknown"))
           (toLowerCase (lawyerAddress anonymous))).
Proof.
  assert (H1 : toLowerCase "" = "") by reflexivity.
  assert (H2 : toLowerCase (trim "Unknown") <> "") by (vm_compute; discriminate).
  pose proof (placeholders_are_not_searched "Unknown" anonymous H1
                (or_introl eq_refl) (or_introl eq_refl) H2) as H.
  split; [exact H1|]. split; [exact H2|].
  split; [exact (proj1 H) | exact (proj2 (proj2 H))].
Defined.

Lemma busy_map_mirrors_calls_in_flight_witness :
  sessions distinctIds sampleSession
  /\ isLoading (ui sampleSession) = fetching sampleSession
  /\ NoDup (List.map id (inFlight sampleSession)).
Proof.
  pose proof (busy_map_mirrors_calls_in_flight distinctIds sampleSession
                sampleSession_sessions) as H.
  split; [exact sampleSession_sessions|].
  split; [exact (proj1 H) | exact (proj1 (proj2 (proj2 H)))].
Defined.

Lemma each_success_removes_one_row_witness :
  sessions distinctIds sampleSession
  /\ NoDup (List.map id (requests (ui sampleSession)))
  /\ forall req, req ∈ inFlight sampleSession -> req ∈ requests (ui sampleSession).
Proof.
  pose proof (each_success_removes_one_row sampleSession
                sampleSession_sessions) as H.
  split; [exact sampleSession_sessions|].
  split; [exact (proj1 H) | exact (proj1 (proj2 H))].
Defined.

Lemma session_page_is_well_formed_witness :
  sessions distinctIds sampleSession
  /\ 1 <= currentPage (ui sampleSession)
  /\ In (pageSize (ui sampleSession)) pageSizeOptions.
Proof.
  pose proof (session_page_is_well_formed distinctIds sampleSession
                sampleSession_sessions) as H.
  split; [exact sampleSession_sessions|].
  split; [exact (proj1 H) | exact (proj1 (proj2 H))].
Defined.

Lemma banner_is_never_dismissed_witness :
  let evs := [ClickNext; AssignSettled (sampleRequest "3") (Fulfilled tt)] in
  let ss' := default failedSession (deliverAll failedSession evs) in
  fetching failedSession = false
  /\ error (ui failedSession) <> ""
  /\ deliverAll failedSession evs = Some ss'
  /\ fetching ss' = false /\ error (ui ss') <> "".
Proof.
  intros evs ss'.
  assert (H1 : fetching failedSession = false) by (vm_compute; reflexivity).
  assert (H2 : error (ui failedSession) <> "") by (vm_compute; discriminate).
  assert (H3 : deliverAll failedSession evs = Some ss')
    by (vm_compute; reflexivity).
  split; [exact H1|]. split; [exact H2|]. split; [exact H3|].
  exact (banner_is_never_dismissed failedSession evs ss' H1 H2 H3).
Defined.

Lemma collection_only_shrinks_witness :
  let evs := [ClickNext; AssignSettled (sampleRequest "3") (Fulfilled tt)] in
  let ss' := default sampleSession (deliverAll sampleSession evs) in
  fetching sampleSession = false
  /\ deliverAll sampleSession evs = Some ss'
  /\ (length (requests (ui ss')) <= length (requests (ui sampleSession)))%nat.
Proof.
  intros evs ss'.
  assert (H1 : fetching sampleSession = false) by (vm_compute; reflexivity).
  assert (H2 : deliverAll sampleSession evs = Some ss')
    by (vm_compute; reflexivity).
  split; [exact H1|]. split; [exact H2|].
  exact (proj2 (collection_only_shrinks sampleSession evs ss' H1 H2)).
Defined.

Example sample_session_state :
  List.map id (inFlight sampleSession) = ["5"; "3"]
  /\ busy (ui sampleSession) "3" = true
  /\ busy (ui sampleSession) "4" = false
  /\ deliver sampleSession (ClickApprove (sampleRequest "3")) = None
  /\ deliver sampleSession (LoadSettled (Fulfilled None)) = None
  /\ error (ui failedSession) = "network down".
Proof. vm_compute. repeat split; reflexivity. Qed.
